(** * go-eth2-client: cached immutable parameters and the service life cycle

    A shallow embedding of

    - [prysmgrpc.Service.RANDAODomain] (prysmgrpc/randaodomain.go), the
      lazily cached fetch of the RANDAO domain over gRPC, and
    - [tekuhttp.New], [fetchStaticValues], [Name], [Address] and [close],
      the constructor, the accessors and the shutdown of the HTTP backend,

    together with the properties the specification states about them.

    Go values are modelled as follows.  An [error] interface value is an
    [option error] ([None] is [nil]); a method with a pointer receiver is a
    function that takes the receiver and returns it updated; the node behind
    the transport is a stub whose answers are a function of the number of
    requests it has already served, and every request is recorded in a log,
    so that "no I/O" reads "the log did not grow". *)

From Stdlib Require Import ZArith Lia.
From Stdlib Require Import Strings.Ascii Strings.Byte.
From stdpp Require Import base option list strings gmap.

Open Scope string_scope.
Open Scope list_scope.

(** ** github.com/pkg/errors *)

Module errors.

(** An error built by [errors.New], an error of another package (gRPC
    status, decoding error ...) known by its text, or an error wrapped
    with a message by [errors.Wrap] / [errors.Wrapf]. *)
Inductive error : Type :=
| fundamental (msg : string)
| foreign (msg : string)
| withMessage (cause : error) (msg : string).

Definition New (message : string) : error := fundamental message.

(** [errors.Wrap(err, message)] for [err != nil] (the only way the
    sources call it). *)
Definition Wrap (err : error) (message : string) : error :=
  withMessage err message.

(** [err.Error()]. *)
Fixpoint Error (e : error) : string :=
  match e with
  | fundamental msg => msg
  | foreign msg => msg
  | withMessage cause msg => msg +:+ ": " +:+ Error cause
  end.

(** [errors.Cause(err)]: the innermost error of a chain of wraps. *)
Fixpoint Cause (e : error) : error :=
  match e with
  | withMessage cause _ => Cause cause
  | _ => e
  end.

(** [e] wraps [inner]: [inner] is reached from [e] by unwrapping. *)
Fixpoint wraps (e inner : error) {struct e} : Prop :=
  match e with
  | withMessage cause _ => cause = inner \/ wraps cause inner
  | _ => False
  end.

End errors.

(** ** context (Go standard library)

    A context is known by its deadline, if it has one, and by whether its
    [Done] channel is closed.  Times and durations are nanoseconds. *)

Module context.

Record Context : Type := mkContext {
  deadline : option Z;
  isDone : bool
}.

Definition Background : Context := mkContext None false.

(** [context.WithDeadline(parent, d)] at time [now]: a parent deadline
    that is sooner is kept; the child is done when its parent is, or when
    [d] has already passed. *)
Definition WithDeadline (now : Z) (parent : Context) (d : Z) : Context :=
  match deadline parent with
  | Some cur =>
      if (cur <? d)%Z then mkContext (Some cur) (isDone parent)
      else mkContext (Some d) (isDone parent || (d - now <=? 0)%Z)
  | None => mkContext (Some d) (isDone parent || (d - now <=? 0)%Z)
  end.

(** [context.WithTimeout(parent, timeout)] is
    [WithDeadline(parent, time.Now().Add(timeout))]. *)
Definition WithTimeout (now : Z) (parent : Context) (timeout : Z) : Context :=
  WithDeadline now parent (now + timeout).

End context.

(** ** spec/phase0: DomainType is [4]byte *)

Module phase0.

Definition DomainType : Type := list byte.

(** The zero value [spec.DomainType{}]. *)
Definition zero : DomainType := [x00; x00; x00; x00].

(** The builtin [copy(dst, src)] on byte slices: the first
    [min(len(dst), len(src))] bytes of [dst] are overwritten. *)
Definition copy (dst src : list byte) : list byte :=
  let n := Nat.min (length dst) (length src) in
  take n src ++ drop n dst.

Arguments copy : simpl never.

End phase0.

(** ** prysmgrpc: the RANDAO domain, fetched once and cached *)

Module prysmgrpc.
Import errors context phase0.

(** [ethpb.BeaconConfig]: the configuration map of the node. *)
Record BeaconConfig : Type := mkBeaconConfig {
  Config : gmap string string
}.

(** The node behind a [grpc.ClientConn], as a call-counting stub: its
    answer to [GetBeaconConfig] given the number of requests it has
    already served and the context of the request.  The generated gRPC
    client returns either a configuration or an error, never both. *)
Definition ClientConn : Type := nat -> Context -> BeaconConfig + error.

(** The fields of [Service] that [RANDAODomain] uses; [randaoDomain] is
    the cache slot, [None] for the [nil] pointer. *)
Record Service : Type := mkService {
  conn : ClientConn;
  timeout : Z;
  randaoDomain : option DomainType
}.

(** What lies outside the service: the clock read by
    [context.WithTimeout], and the log of the contexts of the requests
    sent to the node so far. *)
Record World : Type := mkWorld {
  now : Z;
  requests : list Context
}.

(** [conn.GetBeaconConfig(opCtx, &types.Empty{})]. *)
Definition GetBeaconConfig (c : ClientConn) (opCtx : Context) (w : World)
  : World * (BeaconConfig + error) :=
  (mkWorld (now w) (requests w ++ [opCtx]), c (length (requests w)) opCtx).

Definition set_randaoDomain (s : Service) (d : DomainType) : Service :=
  mkService (conn s) (timeout s) (Some d).

Definition msg_obtain : string := "failed to obtain configuration".
Definition msg_missing : string := "config did not provide DomainRandao value".

Section RANDAODomain.

(** [parseConfigByteArray] is defined elsewhere in the package, and
    [strconv.Quote] (the verb [%q]) in the Go library: both are
    parameters of the development. *)
Variable parseConfigByteArray : string -> list byte * option error.
Variable Quote : string -> string.

(** [fmt.Sprintf("failed to convert value %q for DomainRandao", val)]. *)
Definition msg_convert (val : string) : string :=
  "failed to convert value " +:+ Quote val +:+ " for DomainRandao".

Definition Outcome : Type := Service * World * (DomainType * option error).

(** [func (s *Service) RANDAODomain(ctx) (spec.DomainType, error)].
    The [cancel()] of line 31 releases the timer of [opCtx] once the
    answer is there; it touches neither the caller's context nor the
    service. *)
Definition RANDAODomain (s : Service) (ctx : Context) (w : World) : Outcome :=
  match randaoDomain s with
  | Some cached => (s, w, (cached, None))
  | None =>
      let opCtx := WithTimeout (now w) ctx (timeout s) in
      let '(w1, reply) := GetBeaconConfig (conn s) opCtx w in
      match reply with
      | inr err => (s, w1, (zero, Some (Wrap err msg_obtain)))
      | inl config =>
          match Config config !! "DomainRandao" with
          | None => (s, w1, (zero, Some (New msg_missing)))
          | Some val =>
              match parseConfigByteArray val with
              | (_, Some err) =>
                  (s, w1, (zero, Some (Wrap err (msg_convert val))))
              | (tmp, None) =>
                  let domainType := copy zero tmp in
                  (set_randaoDomain s domainType, w1, (domainType, None))
              end
          end
      end
  end.

(** *** The same method, statement by statement

    Several goroutines may run [RANDAODomain] on one service.  A call
    is then at one of these points. *)
Inductive pc : Type :=
| AtCheck (ctx : Context)            (* line 27: s.randaoDomain == nil ? *)
| AtFetch (ctx : Context)            (* lines 28-45: request, look up, parse *)
| AtStore (domainType : DomainType)  (* line 46: s.randaoDomain = &domainType *)
| AtLoad                             (* line 48: *s.randaoDomain *)
| Returned (ret : DomainType * option error)
| Panicked.                          (* nil pointer dereference at line 48 *)

(** One statement of one call, on the shared service and world. *)
Definition step (t : pc) (s : Service) (w : World) : pc * Service * World :=
  match t with
  | AtCheck ctx =>
      match randaoDomain s with
      | None => (AtFetch ctx, s, w)
      | Some _ => (AtLoad, s, w)
      end
  | AtFetch ctx =>
      let opCtx := WithTimeout (now w) ctx (timeout s) in
      let '(w1, reply) := GetBeaconConfig (conn s) opCtx w in
      match reply with
      | inr err => (Returned (zero, Some (Wrap err msg_obtain)), s, w1)
      | inl config =>
          match Config config !! "DomainRandao" with
          | None => (Returned (zero, Some (New msg_missing)), s, w1)
          | Some val =>
              match parseConfigByteArray val with
              | (_, Some err) =>
                  (Returned (zero, Some (Wrap err (msg_convert val))), s, w1)
              | (tmp, None) => (AtStore (copy zero tmp), s, w1)
              end
          end
      end
  | AtStore domainType => (AtLoad, set_randaoDomain s domainType, w)
  | AtLoad =>
      match randaoDomain s with
      | Some d => (Returned (d, None), s, w)
      | None => (Panicked, s, w)
      end
  | Returned _ | Panicked => (t, s, w)
  end.

(** A service, its world, and the calls in progress. *)
Record Machine : Type := mkMachine {
  svc : Service;
  world : World;
  callers : list pc
}.

(** The scheduler lets caller [i] run one statement. *)
Definition step_at (i : nat) (m : Machine) : Machine :=
  match callers m !! i with
  | Some t =>
      let '(t', s', w') := step t (svc m) (world m) in
      mkMachine s' w' (<[i := t']> (callers m))
  | None => m
  end.

(** A schedule is the list of the callers chosen, in order. *)
Definition run (schedule : list nat) (m : Machine) : Machine :=
  fold_left (fun m i => step_at i m) schedule m.

End RANDAODomain.

End prysmgrpc.

(** ** tekuhttp: construction, accessors and shutdown of the HTTP backend *)

Module tekuhttp.
Import errors context.

(** [sync.RWMutex]: free, held by a writer, or held by readers. *)
Inductive RWMutex : Type :=
| Unlocked
| WriteLocked
| ReadLocked (readers : nat).

(** [Lock()]: granted on a free mutex; [None] when the caller would have
    to wait. *)
Definition Lock (m : RWMutex) : option RWMutex :=
  match m with
  | Unlocked => Some WriteLocked
  | _ => None
  end.

(** [Unlock()]: releases the writer; [None] is the run-time fault of
    unlocking a mutex that no writer holds. *)
Definition Unlock (m : RWMutex) : option RWMutex :=
  match m with
  | WriteLocked => Some Unlocked
  | _ => None
  end.

(** [http.Transport] and [http.Client], by the fields [New] sets. *)
Record Transport : Type := mkTransport {
  MaxIdleConns : Z;
  MaxIdleConnsPerHost : Z;
  IdleConnTimeout : Z
}.

Record Client : Type := mkClient {
  transport : Transport
}.

Definition second : Z := 1000000000.

(** The options of the constructor once parsed ([zerolog.Level] is an
    integer). *)
Record parameters : Type := mkParameters {
  p_logLevel : Z;
  p_address : string;
  p_timeout : Z
}.

Section Service.

(** [url.URL], [client.BeaconChainHeadUpdatedHandler], [time.Time] and
    the node with its network are kept abstract. *)
Context {URL Handler Time World : Type}.

(** [type Service struct]. *)
Record Service : Type := mkService {
  ctx : Context;
  base : URL;
  address : string;
  client : Client;
  timeout : Z;
  genesisTime : option Time;
  genesisValidatorsRoot : list byte;
  beaconChainHeadUpdatedMutex : RWMutex;
  beaconChainHeadUpdatedHandlers : list Handler
}.

Definition set_mutex (s : Service) (m : RWMutex) : Service :=
  mkService (ctx s) (base s) (address s) (client s) (timeout s)
    (genesisTime s) (genesisValidatorsRoot s) m
    (beaconChainHeadUpdatedHandlers s).

Definition set_handlers (s : Service) (hs : list Handler) : Service :=
  mkService (ctx s) (base s) (address s) (client s) (timeout s)
    (genesisTime s) (genesisValidatorsRoot s)
    (beaconChainHeadUpdatedMutex s) hs.

(** [func (s *Service) Name() string]. *)
Definition Name (s : Service) : string := "Teku (HTTP)".

(** [func (s *Service) Address() string]. *)
Definition Address (s : Service) : string := address s.

(** [func (s *Service) close()], statement by statement. *)
Definition close_lock (s : Service) : option Service :=
  set_mutex s <$> Lock (beaconChainHeadUpdatedMutex s).

Definition close_clear (s : Service) : Service :=
  set_handlers s [].     (* make([]client.BeaconChainHeadUpdatedHandler, 0) *)

Definition close_unlock (s : Service) : option Service :=
  set_mutex s <$> Unlock (beaconChainHeadUpdatedMutex s).

Definition close (s : Service) : option Service :=
  s1 ← close_lock s;
  close_unlock (close_clear s1).

(** [close()] called [n] times in a row. *)
Fixpoint close_times (n : nat) (s : Service) : option Service :=
  match n with
  | O => Some s
  | S k => close s ≫= close_times k
  end.

(** The goroutine started by [New]: it waits until the context is
    done, then closes the service.  [None]: still waiting. *)
Definition watcher (c : Context) (s : Service) : option Service :=
  if isDone c then close s else None.

(** The functional options and their parser, [url.Parse] and the
    method [GenesisTime] are defined elsewhere: parameters of the
    development.  The parser and [url.Parse] return a value or an
    error. *)
Context {Param : Type}.  (* the Go type of an option *)
Variable parseAndCheckParameters : list Param -> parameters + error.
Variable url_Parse : string -> URL + error.
Variable GenesisTime :
  Service -> Context -> World -> Service * World * (Time * option error).

(** [func (s *Service) fetchStaticValues(ctx) error]. *)
Definition fetchStaticValues (s : Service) (c : Context) (w : World)
  : Service * World * option error :=
  let '(s1, w1, (_, err)) := GenesisTime s c w in
  match err with
  | Some e => (s1, w1, Some (Wrap e "failed to fetch genesis time"))
  | None => (s1, w1, None)
  end.

(** What [New] hands back: the service pointer ([None] for [nil]), the
    error, the world after its requests, and the context its watcher
    goroutine waits on when one was started. *)
Record Built : Type := mkBuilt {
  service : option Service;
  err : option error;
  after : World;
  watching : option Context
}.

(** The address that is parsed into the base URL. *)
Definition base_address (a : string) : string :=
  if String.prefix "http" a then a else "http://" +:+ a.

(** [func New(ctx, params ...Parameter)], returning a service pointer
    and an error.  The package logger it configures is only written
    to. *)
Definition New (c : Context) (params : list Param) (w : World) : Built :=
  match parseAndCheckParameters params with
  | inr e => mkBuilt None (Some (Wrap e "problem with parameters")) w None
  | inl parameters =>
      let client :=
        mkClient (mkTransport 16 16 (384 * second)) in
      match url_Parse (base_address (p_address parameters)) with
      | inr e => mkBuilt None (Some (Wrap e "invalid URL")) w None
      | inl base =>
          let s :=
            mkService c base (p_address parameters) client
              (p_timeout parameters) None [] Unlocked [] in
          let '(s1, w1, err) := fetchStaticValues s c w in
          match err with
          | Some e =>
              mkBuilt None
                (Some (Wrap e "failed to confirm node connection")) w1 None
          | None => mkBuilt (Some s1) None w1 (Some c)
          end
      end
  end.

(** The struct literal of [New], before the probe. *)
Definition as_built (c : Context) (u : URL) (p : parameters) : Service :=
  mkService c u (p_address p) (mkClient (mkTransport 16 16 (384 * second)))
    (p_timeout p) None [] Unlocked [].

(** [GenesisTime] writes neither the address nor the base URL. *)
Definition keeps_address : Prop :=
  forall s c w,
    address (GenesisTime s c w).1.1 = address s /\
    base (GenesisTime s c w).1.1 = base s.

End Service.

Arguments Service : clear implicits.
Arguments Built : clear implicits.

End tekuhttp.

(** ** The configuration value parser *)

Module configparser.
Import errors.

(** Modelled from the spec: the value of one hexadecimal digit
    ("hex byte array", section 2); the parser itself is in a file of the
    package that is not among the sources. *)
Definition hex_digit (c : ascii) : option N :=
  let n := N_of_ascii c in
  if ((48 <=? n) && (n <=? 57))%N then Some (n - 48)%N
  else if ((97 <=? n) && (n <=? 102))%N then Some (n - 87)%N
  else if ((65 <=? n) && (n <=? 70))%N then Some (n - 55)%N
  else None.

(** Modelled from the spec: two digits per byte; an odd number of digits
    or a character that is no digit cannot be decoded (section 8, "odd-length
    hex string"; section 4.1, "invalid encoding"). *)
Fixpoint hex_decode (s : string) : option (list byte) :=
  match s with
  | EmptyString => Some []
  | String _ EmptyString => None
  | String a (String b rest) =>
      match hex_digit a, hex_digit b, hex_decode rest with
      | Some h, Some l, Some bs =>
          match Byte.of_N (16 * h + l) with
          | Some x => Some (x :: bs)
          | None => None
          end
      | _, _, _ => None
      end
  end.

(** Modelled from the spec: [parseConfigByteArray], missing from the
    sources, decodes a hex byte array such as ["0x01000000"] (section 8)
    and fails on a value that cannot be decoded (section 4.1).  It takes the
    value alone, so it cannot know the length its caller wants. *)
Definition parseConfigByteArray (val : string) : list byte * option error :=
  let digits :=
    match val with
    | String "0" (String "x" rest) => rest
    | _ => val
    end in
  match hex_decode digits with
  | Some bs => (bs, None)
  | None => ([], Some (foreign "invalid byte array"))
  end.

End configparser.

(** ** Stub nodes, for running the model *)

Module stub.
Import errors context.

(** [strconv.Quote] on a string of plain printable characters. *)
Definition Quote (s : string) : string :=
  String (ascii_of_nat 34) (s +:+ String (ascii_of_nat 34) EmptyString).

Definition randao_config : prysmgrpc.BeaconConfig :=
  prysmgrpc.mkBeaconConfig {[ "DomainRandao" := "0x01000000" ]}.

(** A node that always answers with [randao_config]. *)
Definition steady : prysmgrpc.ClientConn := fun _ _ => inl randao_config.

(** A node whose transport fails after its first answer. *)
Definition once : prysmgrpc.ClientConn :=
  fun served _ =>
    match served with
    | O => inl randao_config
    | S _ => inr (foreign "transport is closing")
    end.

(** A node whose transport fails once, then answers. *)
Definition flaky : prysmgrpc.ClientConn :=
  fun served _ =>
    match served with
    | O => inr (foreign "connection refused")
    | S _ => inl randao_config
    end.

(** A node that answers with the given configuration map. *)
Definition serving (m : gmap string string) : prysmgrpc.ClientConn :=
  fun _ _ => inl (prysmgrpc.mkBeaconConfig m).

Definition fresh (c : prysmgrpc.ClientConn) : prysmgrpc.Service :=
  prysmgrpc.mkService c (5 * tekuhttp.second) None.

Definition dawn : prysmgrpc.World := prysmgrpc.mkWorld 0 [].

Definition RANDAODomain :=
  prysmgrpc.RANDAODomain configparser.parseConfigByteArray Quote.

Definition run :=
  prysmgrpc.run configparser.parseConfigByteArray Quote.

(** For the HTTP backend: a URL is its text, a handler a number, a time
    a number of seconds, and the world the list of the URLs probed. *)
Definition TekuService : Type := tekuhttp.Service string nat Z.

Definition WithAddress (a : string) (p : tekuhttp.parameters) : tekuhttp.parameters :=
  tekuhttp.mkParameters (tekuhttp.p_logLevel p) a (tekuhttp.p_timeout p).

Definition WithTimeout (t : Z) (p : tekuhttp.parameters) : tekuhttp.parameters :=
  tekuhttp.mkParameters (tekuhttp.p_logLevel p) (tekuhttp.p_address p) t.

Definition parseAndCheckParameters
    (params : list (tekuhttp.parameters -> tekuhttp.parameters))
  : tekuhttp.parameters + error :=
  let p := fold_left (fun p f => f p) params (tekuhttp.mkParameters 0 "" 0) in
  if String.eqb (tekuhttp.p_address p) "" then inr (New "no address specified")
  else if (tekuhttp.p_timeout p =? 0)%Z then inr (New "no timeout specified")
  else inl p.

Definition url_Parse (a : string) : string + error := inl a.

Definition set_genesisTime (s : TekuService) (t : Z) : TekuService :=
  tekuhttp.mkService (tekuhttp.ctx s) (tekuhttp.base s) (tekuhttp.address s)
    (tekuhttp.client s) (tekuhttp.timeout s) (Some t)
    (tekuhttp.genesisValidatorsRoot s)
    (tekuhttp.beaconChainHeadUpdatedMutex s)
    (tekuhttp.beaconChainHeadUpdatedHandlers s).

(** A node that is up, and one that cannot be reached. *)
Definition GenesisTime_up (s : TekuService) (c : Context) (w : list string)
  : TekuService * list string * (Z * option error) :=
  match tekuhttp.genesisTime s with
  | Some t => (s, w, (t, None))
  | None =>
      (set_genesisTime s 1606824023, w ++ [tekuhttp.base s],
       (1606824023%Z, None))
  end.

Definition GenesisTime_down (s : TekuService) (c : Context) (w : list string)
  : TekuService * list string * (Z * option error) :=
  (s, w ++ [tekuhttp.base s], (0%Z, Some (foreign "connection refused"))).

Definition New_up :=
  tekuhttp.New parseAndCheckParameters url_Parse GenesisTime_up.

Definition New_down :=
  tekuhttp.New parseAndCheckParameters url_Parse GenesisTime_down.

Definition options : list (tekuhttp.parameters -> tekuhttp.parameters) :=
  [WithAddress "localhost:5051"; WithTimeout (5 * tekuhttp.second)].

(** A service with two handlers registered. *)
Definition busy : TekuService :=
  tekuhttp.mkService Background "http://localhost:5051" "localhost:5051"
    (tekuhttp.mkClient (tekuhttp.mkTransport 16 16 (384 * tekuhttp.second)))
    (5 * tekuhttp.second) None [] tekuhttp.Unlocked [7; 9].

End stub.

(** ** Vocabulary of the statements *)

Module interleaving.
Import errors context phase0 prysmgrpc.

(** A call that has not yet passed its request may still send one. *)
Definition may_fetch (t : pc) : nat :=
  match t with
  | AtCheck _ | AtFetch _ => 1
  | _ => 0
  end.

Definition pending (ts : list pc) : nat := sum_list (may_fetch <$> ts).

Definition past_fetch (t : pc) : Prop :=
  match t with
  | AtFetch _ => False
  | _ => True
  end.

(** The node gives one value to the key in all the answers it sends. *)
Definition same_answers (c : ClientConn) : Prop :=
  forall n n' x x' cfg cfg',
    c n x = inl cfg -> c n' x' = inl cfg' ->
    Config cfg !! "DomainRandao" = Config cfg' !! "DomainRandao".

(** [d] is what the method builds from some answer of the node. *)
Definition decoded (parse : string -> list byte * option error)
    (c : ClientConn) (d : DomainType) : Prop :=
  exists n x cfg val tmp,
    c n x = inl cfg /\ Config cfg !! "DomainRandao" = Some val /\
    parse val = (tmp, None) /\ d = copy zero tmp.

(** The values a call holds or has returned. *)
Definition holds_decoded (parse : string -> list byte * option error)
    (c : ClientConn) (t : pc) : Prop :=
  match t with
  | AtStore d => decoded parse c d
  | Returned (d, None) => decoded parse c d
  | _ => True
  end.

(** A call is about to read the slot only when the slot is filled, and
    no call has faulted. *)
Definition loads_safely (m : Machine) : Prop :=
  Forall (fun t => t <> Panicked
                   /\ (t = AtLoad -> is_Some (randaoDomain (svc m))))
    (callers m).

(** The slot is filled and no call is about to send a request. *)
Definition quiet (m : Machine) : Prop :=
  is_Some (randaoDomain (svc m)) /\ Forall past_fetch (callers m).

(** The slot and the calls hold nothing but values decoded from answers
    of the node [c0], which the service still talks to. *)
Definition traced (parse : string -> list byte * option error)
    (c0 : ClientConn) (m : Machine) : Prop :=
  conn (svc m) = c0
  /\ (forall d, randaoDomain (svc m) = Some d -> decoded parse c0 d)
  /\ Forall (holds_decoded parse c0) (callers m).

End interleaving.

Module calls.
Import errors context phase0 prysmgrpc.

(** The request a call sends when it finds the slot empty, the world
    once it is sent, and what the node answers. *)
Definition request_of (s : Service) (c : Context) (w : World) : Context :=
  WithTimeout (now w) c (timeout s).

Definition sent (s : Service) (c : Context) (w : World) : World :=
  mkWorld (now w) (requests w ++ [request_of s c w]).

Definition answer (s : Service) (c : Context) (w : World) : BeaconConfig + error :=
  conn s (length (requests w)) (request_of s c w).

Section Went.
Variable parse : string -> list byte * option error.
Variable Quote : string -> string.

(** The five ways a call can go. *)
Inductive went (s : Service) (c : Context) (w : World) : Outcome -> Prop :=
| went_hit d :
    randaoDomain s = Some d -> went s c w (s, w, (d, None))
| went_unavailable e :
    randaoDomain s = None -> answer s c w = inr e ->
    went s c w (s, sent s c w, (zero, Some (Wrap e msg_obtain)))
| went_missing cfg :
    randaoDomain s = None -> answer s c w = inl cfg ->
    Config cfg !! "DomainRandao" = None ->
    went s c w (s, sent s c w, (zero, Some (New msg_missing)))
| went_malformed cfg val tmp e :
    randaoDomain s = None -> answer s c w = inl cfg ->
    Config cfg !! "DomainRandao" = Some val -> parse val = (tmp, Some e) ->
    went s c w
      (s, sent s c w, (zero, Some (Wrap e (msg_convert Quote val))))
| went_decoded cfg val tmp :
    randaoDomain s = None -> answer s c w = inl cfg ->
    Config cfg !! "DomainRandao" = Some val -> parse val = (tmp, None) ->
    went s c w
      (set_randaoDomain s (copy zero tmp), sent s c w, (copy zero tmp, None)).

End Went.

End calls.

(** ** Calls in turn, and the pace of a call *)

Module sequence.
Import errors context phase0 prysmgrpc.

Section InTurn.
Variable parse : string -> list byte * option error.
Variable Quote : string -> string.

(** Calls made one after the other, each on the service and the world
    that the one before has left; the results are listed in order. *)
Fixpoint calls_in_turn (s : Service) (w : World) (ctxs : list Context)
  : Service * World * list (DomainType * option error) :=
  match ctxs with
  | [] => (s, w, [])
  | c :: rest =>
      let '(s1, w1, r) := RANDAODomain parse Quote s c w in
      let '(s2, w2, rs) := calls_in_turn s1 w1 rest in
      (s2, w2, r :: rs)
  end.

(** One statement of a call, on a triple. *)
Definition advance (x : pc * Service * World) : pc * Service * World :=
  step parse Quote x.1.1 x.1.2 x.2.

End InTurn.

Definition failed (r : DomainType * option error) : bool :=
  match r.2 with
  | Some _ => true
  | None => false
  end.

(** The number of results that carry an error. *)
Definition failures (rs : list (DomainType * option error)) : nat :=
  length (filter (fun r => failed r = true) rs).

(** The schedule that lets caller [first] run its four statements, then
    the next caller, and so on for [n] callers. *)
Definition one_by_one (first n : nat) : list nat :=
  flat_map (fun i => replicate 4 i) (seq first n).

(** The statements a call has still to run, at most. *)
Definition rank (t : pc) : nat :=
  match t with
  | AtCheck _ => 4
  | AtFetch _ => 3
  | AtStore _ => 2
  | AtLoad => 1
  | Returned _ | Panicked => 0
  end.

(** How often the schedule picks caller [i]. *)
Fixpoint turns (i : nat) (schedule : list nat) : nat :=
  match schedule with
  | [] => 0
  | j :: rest => (if Nat.eqb j i then 1 else 0) + turns i rest
  end.

End sequence.

Module registry.
Import errors context tekuhttp.

Section Registry.
Context {URL Handler Time World : Type}.
Variable GenesisTime :
  Service URL Handler Time -> Context -> World ->
  Service URL Handler Time * World * (Time * option error).

(** [GenesisTime] writes neither the lock nor the handlers. *)
Definition keeps_registry : Prop :=
  forall s c w,
    beaconChainHeadUpdatedMutex (GenesisTime s c w).1.1
    = beaconChainHeadUpdatedMutex s
    /\ beaconChainHeadUpdatedHandlers (GenesisTime s c w).1.1
       = beaconChainHeadUpdatedHandlers s.

End Registry.

End registry.

(** * Properties *)

(** ** The byte copy into a domain *)

Section Copy.
Import phase0.

Lemma copy_zero_eq (tmp : list byte) :
  copy zero tmp = take 4 tmp ++ replicate (4 - length tmp) x00.
Proof.
  unfold copy, zero. cbn [length].
  destruct tmp as [|a [|b [|c [|d tmp]]]]; reflexivity.
Qed.

Lemma copy_zero_length (tmp : list byte) : length (copy zero tmp) = 4.
Proof.
  rewrite copy_zero_eq, length_app, length_take, length_replicate. lia.
Qed.

Lemma copy_zero_lookup (tmp : list byte) (i : nat) :
  i < 4 -> copy zero tmp !! i = Some (default x00 (tmp !! i)).
Proof.
  intros Hi. rewrite copy_zero_eq.
  destruct (decide (i < length tmp)) as [Hlt|Hge].
  - rewrite lookup_app_l by (rewrite length_take; lia).
    rewrite lookup_take_lt by lia.
    destruct (lookup_lt_is_Some_2 tmp i Hlt) as [x ->]. reflexivity.
  - rewrite lookup_app_r by (rewrite length_take; lia).
    rewrite (lookup_ge_None_2 tmp i) by lia. cbn [default].
    apply lookup_replicate_2. rewrite length_take. lia.
Qed.

End Copy.

(** ** Texts *)

Lemma append_assoc (s1 s2 s3 : string) :
  (s1 +:+ s2) +:+ s3 = s1 +:+ s2 +:+ s3.
Proof.
  induction s1 as [|a s1 IH]; [reflexivity|].
  change (String a ((s1 +:+ s2) +:+ s3) = String a (s1 +:+ s2 +:+ s3)).
  by f_equal.
Qed.

(** ** One call of [RANDAODomain] *)

Section OneCall.
Import errors context phase0 prysmgrpc calls.

Variable parse : string -> list byte * option error.
Variable Quote : string -> string.

Local Abbreviation RANDAODomain := (RANDAODomain parse Quote).
Local Abbreviation msg_convert := (msg_convert Quote).
Local Abbreviation went := (went parse Quote).

Lemma RANDAODomain_hit s c w d :
  randaoDomain s = Some d -> RANDAODomain s c w = (s, w, (d, None)).
Proof. intros H. unfold prysmgrpc.RANDAODomain. rewrite H. reflexivity. Qed.

Lemma RANDAODomain_unavailable s c w e :
  randaoDomain s = None -> answer s c w = inr e ->
  RANDAODomain s c w = (s, sent s c w, (zero, Some (Wrap e msg_obtain))).
Proof.
  intros H Ha. unfold prysmgrpc.RANDAODomain, GetBeaconConfig.
  rewrite H. unfold answer, request_of in Ha. rewrite Ha. reflexivity.
Qed.

Lemma RANDAODomain_missing s c w cfg :
  randaoDomain s = None -> answer s c w = inl cfg ->
  Config cfg !! "DomainRandao" = None ->
  RANDAODomain s c w = (s, sent s c w, (zero, Some (New msg_missing))).
Proof.
  intros H Ha Hk. unfold prysmgrpc.RANDAODomain, GetBeaconConfig.
  rewrite H. unfold answer, request_of in Ha. rewrite Ha, Hk. reflexivity.
Qed.

Lemma RANDAODomain_malformed s c w cfg val tmp e :
  randaoDomain s = None -> answer s c w = inl cfg ->
  Config cfg !! "DomainRandao" = Some val -> parse val = (tmp, Some e) ->
  RANDAODomain s c w
  = (s, sent s c w, (zero, Some (Wrap e (msg_convert val)))).
Proof.
  intros H Ha Hk Hp. unfold prysmgrpc.RANDAODomain, GetBeaconConfig.
  rewrite H. unfold answer, request_of in Ha. rewrite Ha, Hk, Hp. reflexivity.
Qed.

Lemma RANDAODomain_decoded s c w cfg val tmp :
  randaoDomain s = None -> answer s c w = inl cfg ->
  Config cfg !! "DomainRandao" = Some val -> parse val = (tmp, None) ->
  RANDAODomain s c w
  = (set_randaoDomain s (copy zero tmp), sent s c w, (copy zero tmp, None)).
Proof.
  intros H Ha Hk Hp. unfold prysmgrpc.RANDAODomain, GetBeaconConfig.
  rewrite H. unfold answer, request_of in Ha. rewrite Ha, Hk, Hp. reflexivity.
Qed.

Lemma RANDAODomain_went s c w : went s c w (RANDAODomain s c w).
Proof.
  destruct (randaoDomain s) as [d|] eqn:Hs.
  { rewrite (RANDAODomain_hit s c w d Hs). by constructor. }
  destruct (answer s c w) as [cfg|e] eqn:Ha.
  2: { rewrite (RANDAODomain_unavailable s c w e Hs Ha). by constructor. }
  destruct (Config cfg !! "DomainRandao") as [val|] eqn:Hk.
  2: { rewrite (RANDAODomain_missing s c w cfg Hs Ha Hk). by econstructor. }
  destruct (parse val) as [tmp [e|]] eqn:Hp.
  - rewrite (RANDAODomain_malformed s c w cfg val tmp e Hs Ha Hk Hp).
    by econstructor.
  - rewrite (RANDAODomain_decoded s c w cfg val tmp Hs Ha Hk Hp).
    by econstructor.
Qed.

(** A call that returns no error leaves the slot holding what it
    returned. *)
Lemma RANDAODomain_success_populates s c w s' w' d :
  RANDAODomain s c w = (s', w', (d, None)) -> randaoDomain s' = Some d.
Proof.
  intros H. pose proof (RANDAODomain_went s c w) as Hw. rewrite H in Hw.
  inversion Hw; subst; try done.
Qed.

(** A call that finds the slot empty sends one request, however it ends. *)
Lemma RANDAODomain_miss_sends s c w :
  randaoDomain s = None -> (RANDAODomain s c w).1.2 = sent s c w.
Proof.
  intros H. pose proof (RANDAODomain_went s c w) as Hw.
  inversion Hw; subst; try reflexivity; congruence.
Qed.

(** C3: when the slot is empty and the request fails, the call returns the
    transport error wrapped and the service is unchanged, its slot still
    empty; when the value does not parse, the call returns an error and the
    service is unchanged as well.  Whatever the call returns, an error
    means the slot is still empty, so that the next call sends a request
    again, and a filled slot means the request, the lookup and the parse
    all succeeded. *)
Theorem RANDAODomain_failure_keeps_slot_empty s c w :
  randaoDomain s = None ->
  (forall e, answer s c w = inr e ->
     RANDAODomain s c w = (s, sent s c w, (zero, Some (Wrap e msg_obtain)))
     /\ wraps (Wrap e msg_obtain) e
     /\ Cause (Wrap e msg_obtain) = Cause e)
  /\ (forall cfg val tmp e,
        answer s c w = inl cfg ->
        Config cfg !! "DomainRandao" = Some val ->
        parse val = (tmp, Some e) ->
        RANDAODomain s c w
        = (s, sent s c w, (zero, Some (Wrap e (msg_convert val)))))
  /\ (forall s' w' d e,
        RANDAODomain s c w = (s', w', (d, Some e)) ->
        s' = s /\ randaoDomain s' = None /\
        forall c2 w2, (RANDAODomain s' c2 w2).1.2 = sent s' c2 w2)
  /\ (forall s' w' d oe,
        RANDAODomain s c w = (s', w', (d, oe)) ->
        is_Some (randaoDomain s') ->
        oe = None /\ randaoDomain s' = Some d /\
        exists cfg val tmp,
          answer s c w = inl cfg /\
          Config cfg !! "DomainRandao" = Some val /\
          parse val = (tmp, None) /\ d = copy zero tmp).
Proof.
  intros Hs. split; [|split; [|split]].
  - intros e Ha. split; [by apply RANDAODomain_unavailable|].
    split; [cbn; by left|reflexivity].
  - intros cfg val tmp e Ha Hk Hp.
    exact (RANDAODomain_malformed s c w cfg val tmp e Hs Ha Hk Hp).
  - intros s' w' d e Hcall.
    pose proof (RANDAODomain_went s c w) as Hw. rewrite Hcall in Hw.
    assert (s' = s) as -> by (inversion Hw; subst; congruence).
    split; [reflexivity|]. split; [exact Hs|].
    intros c2 w2. by apply RANDAODomain_miss_sends.
  - intros s' w' d oe Hcall [x Hx].
    pose proof (RANDAODomain_went s c w) as Hw. rewrite Hcall in Hw.
    inversion Hw; subst; try congruence.
    split; [reflexivity|]. split; [reflexivity|]. eauto 10.
Qed.

(** Both messages name the key. *)
Lemma msg_missing_names_key :
  exists pre post, Error (New msg_missing) = pre +:+ "DomainRandao" +:+ post.
Proof. by exists "config did not provide ", " value". Qed.

Lemma msg_convert_names_key val e :
  exists pre post,
    Error (Wrap e (msg_convert val)) = pre +:+ "DomainRandao" +:+ post.
Proof.
  exists ("failed to convert value " +:+ Quote val +:+ " for "),
         (": " +:+ Error e).
  cbn [Error Wrap]. unfold prysmgrpc.msg_convert.
  by rewrite !append_assoc.
Qed.

(** C4: when the answer of the node lacks the key "DomainRandao" the call
    returns the error made by [errors.New] whose text says that the
    configuration did not provide the value; when the key is there and its
    value does not parse, the call returns the parser's error wrapped with
    the value and the key.  The two errors differ whatever the value and
    the parser's error, in their text and in their kind, both texts contain
    the name of the key, and in both cases the returned domain comes with
    an error and the slot stays empty. *)
Theorem RANDAODomain_missing_key_is_not_format_error s c w :
  randaoDomain s = None ->
  (forall cfg,
     answer s c w = inl cfg -> Config cfg !! "DomainRandao" = None ->
     RANDAODomain s c w = (s, sent s c w, (zero, Some (New msg_missing))))
  /\ (forall cfg val tmp e,
        answer s c w = inl cfg ->
        Config cfg !! "DomainRandao" = Some val ->
        parse val = (tmp, Some e) ->
        RANDAODomain s c w
        = (s, sent s c w, (zero, Some (Wrap e (msg_convert val)))))
  /\ (forall val e,
        New msg_missing <> Wrap e (msg_convert val) /\
        Error (New msg_missing) <> Error (Wrap e (msg_convert val)))
  /\ (exists pre post,
        Error (New msg_missing) = pre +:+ "DomainRandao" +:+ post)
  /\ (forall val e, exists pre post,
        Error (Wrap e (msg_convert val)) = pre +:+ "DomainRandao" +:+ post).
Proof.
  intros Hs. split; [|split; [|split; [|split]]].
  - intros cfg Ha Hk. exact (RANDAODomain_missing s c w cfg Hs Ha Hk).
  - intros cfg val tmp e Ha Hk Hp.
    exact (RANDAODomain_malformed s c w cfg val tmp e Hs Ha Hk Hp).
  - intros val e. split; [discriminate|].
    cbn [Error Wrap New]. unfold prysmgrpc.msg_convert, msg_missing.
    rewrite !append_assoc. discriminate.
  - apply msg_missing_names_key.
  - apply msg_convert_names_key.
Qed.

(** C10: when the request, the lookup and the parse succeed, the call
    returns without error a domain of exactly four bytes, whatever the
    length of the decoded value: its first bytes are those of the value, at
    most four of them, and the rest are zero.  A shorter value is padded
    with zeros, a longer one is cut after its fourth byte; the same domain
    is stored in the slot. *)
Theorem RANDAODomain_copies_at_most_four_bytes s c w cfg val tmp :
  randaoDomain s = None ->
  answer s c w = inl cfg ->
  Config cfg !! "DomainRandao" = Some val ->
  parse val = (tmp, None) ->
  exists d,
    RANDAODomain s c w = (set_randaoDomain s d, sent s c w, (d, None))
    /\ length d = 4
    /\ d = take 4 tmp ++ replicate (4 - length tmp) x00
    /\ (forall i, i < 4 -> d !! i = Some (default x00 (tmp !! i)))
    /\ (length tmp <= 4 -> d = tmp ++ replicate (4 - length tmp) x00)
    /\ (4 <= length tmp -> d = take 4 tmp).
Proof.
  intros Hs Ha Hk Hp. exists (copy zero tmp).
  split; [exact (RANDAODomain_decoded s c w cfg val tmp Hs Ha Hk Hp)|].
  split; [apply copy_zero_length|].
  split; [apply copy_zero_eq|].
  split; [intros i Hi; by apply copy_zero_lookup|].
  rewrite copy_zero_eq. split; intros Hl.
  - by rewrite take_ge.
  - replace (4 - length tmp) with 0 by lia. cbn. by rewrite app_nil_r.
Qed.

(** What [context.WithTimeout] makes of the caller's context. *)
Lemma WithTimeout_deadline now c t :
  deadline (WithTimeout now c t)
  = Some (match deadline c with
          | Some p => Z.min p (now + t)
          | None => (now + t)%Z
          end).
Proof.
  unfold WithTimeout, WithDeadline.
  destruct (deadline c) as [p|]; [|reflexivity].
  destruct (Z.ltb_spec p (now + t)); cbn; f_equal; lia.
Qed.

Lemma WithTimeout_done now c t :
  isDone c = true -> isDone (WithTimeout now c t) = true.
Proof.
  intros H. unfold WithTimeout, WithDeadline.
  destruct (deadline c) as [p|]; [destruct (_ <? _)%Z|]; cbn; rewrite H; done.
Qed.

(** C6, as amended: a call that finds the slot empty sends exactly one
    request, under the context that [context.WithTimeout] derives from the
    caller's context and the timeout of the service.  Whatever the caller's
    context, that context has a deadline, which is never later than the
    time of the call plus the timeout; it is the caller's own deadline when
    that one is sooner, and the request context is done as soon as the
    caller's context is. *)
Theorem RANDAODomain_request_context s c w :
  randaoDomain s = None ->
  let opCtx := WithTimeout (now w) c (timeout s) in
  requests (RANDAODomain s c w).1.2 = requests w ++ [opCtx]
  /\ (exists d, deadline opCtx = Some d /\ (d <= now w + timeout s)%Z)
  /\ deadline opCtx
     = Some (match deadline c with
             | Some p => Z.min p (now w + timeout s)
             | None => (now w + timeout s)%Z
             end)
  /\ (isDone c = true -> isDone opCtx = true).
Proof.
  intros Hs opCtx. split; [|split; [|split]].
  - by rewrite RANDAODomain_miss_sends.
  - unfold opCtx. rewrite WithTimeout_deadline. eexists; split; [reflexivity|].
    destruct (deadline c); lia.
  - apply WithTimeout_deadline.
  - apply WithTimeout_done.
Qed.

End OneCall.

(** ** Calls of [RANDAODomain] that overlap *)

Section Interleaved.
Import errors context phase0 prysmgrpc calls interleaving.

Variable parse : string -> list byte * option error.
Variable Quote : string -> string.

Local Abbreviation RANDAODomain := (RANDAODomain parse Quote).
Local Abbreviation step := (step parse Quote).
Local Abbreviation step_at := (step_at parse Quote).
Local Abbreviation run := (run parse Quote).
Local Abbreviation traced := (traced parse).

(** A call that runs alone, statement by statement, is the method. *)
Lemma RANDAODomain_run s c w :
  run [0; 0; 0; 0] (mkMachine s w [AtCheck c])
  = let '(s', w', r) := RANDAODomain s c w in mkMachine s' w' [Returned r].
Proof.
  unfold prysmgrpc.run, prysmgrpc.step_at, prysmgrpc.RANDAODomain.
  cbn. destruct (randaoDomain s) as [d|] eqn:Hs; cbn.
  { rewrite Hs. reflexivity. }
  destruct (conn s _ _) as [cfg|e]; cbn; [|reflexivity].
  destruct (Config cfg !! "DomainRandao") as [val|]; cbn; [|reflexivity].
  destruct (parse val) as [tmp [e|]]; reflexivity.
Qed.

(** *** No more requests than calls *)

Lemma step_budget t s w :
  length (requests (step t s w).2) + may_fetch (step t s w).1.1
  <= length (requests w) + may_fetch t.
Proof.
  destruct t as [c|c|d| |r|]; cbn.
  - destruct (randaoDomain s); cbn; lia.
  - destruct (conn s _ _) as [cfg|e]; cbn.
    + destruct (Config cfg !! "DomainRandao") as [val|]; cbn.
      * destruct (parse val) as [tmp [e|]]; cbn; rewrite length_app; cbn; lia.
      * rewrite length_app; cbn; lia.
    + rewrite length_app; cbn; lia.
  - lia.
  - destruct (randaoDomain s); cbn; lia.
  - lia.
  - lia.
Qed.

Lemma pending_insert ts i t t' :
  ts !! i = Some t ->
  pending (<[i := t']> ts) + may_fetch t = pending ts + may_fetch t'.
Proof.
  unfold pending. revert i. induction ts as [|a ts IH]; intros [|i] H;
    try discriminate; cbn in *.
  - injection H as ->. lia.
  - rewrite <- !Nat.add_assoc. f_equal. exact (IH i H).
Qed.

Lemma step_at_budget i m :
  length (requests (world (step_at i m))) + pending (callers (step_at i m))
  <= length (requests (world m)) + pending (callers m).
Proof.
  unfold prysmgrpc.step_at.
  destruct (callers m !! i) as [t|] eqn:Ht; [|lia].
  pose proof (step_budget t (svc m) (world m)) as Hb.
  pose proof (pending_insert (callers m) i t (step t (svc m) (world m)).1.1 Ht).
  destruct (step t (svc m) (world m)) as [[t' s'] w'].
  cbn [fst snd world callers svc] in *. lia.
Qed.

Lemma run_budget schedule m :
  length (requests (world (run schedule m)))
  + pending (callers (run schedule m))
  <= length (requests (world m)) + pending (callers m).
Proof.
  revert m. induction schedule as [|i sch IH]; intros m; [cbn; lia|].
  change (run (i :: sch) m) with (run sch (step_at i m)).
  etrans; [apply IH|apply step_at_budget].
Qed.

Lemma pending_fresh (ctxs : list Context) :
  pending (AtCheck <$> ctxs) = length ctxs.
Proof. unfold pending. induction ctxs; cbn; [reflexivity|]. lia. Qed.

(** *** Nothing is sent once the slot is filled *)

Lemma step_quiet t s w :
  is_Some (randaoDomain s) -> past_fetch t ->
  (step t s w).2 = w /\
  is_Some (randaoDomain (step t s w).1.2) /\ past_fetch (step t s w).1.1.
Proof.
  intros [d Hd] Ht. destruct t as [c|c|d'| |r|]; cbn in *; try done.
  all: rewrite Hd; cbn; rewrite ?Hd; done.
Qed.

Lemma step_at_quiet i m :
  quiet m -> world (step_at i m) = world m /\ quiet (step_at i m).
Proof.
  intros [Hs Hf]. unfold prysmgrpc.step_at.
  destruct (callers m !! i) as [t|] eqn:Ht; [|done].
  assert (past_fetch t) as Hp.
  { rewrite Forall_lookup in Hf. by eapply Hf. }
  destruct (step_quiet t (svc m) (world m) Hs Hp) as (Hw & Hs' & Hp').
  destruct (step t (svc m) (world m)) as [[t' s'] w']. cbn in *.
  split; [done|]. split; [done|]. cbn. by apply Forall_insert.
Qed.

Lemma run_quiet schedule m :
  quiet m -> world (run schedule m) = world m.
Proof.
  revert m. induction schedule as [|i sch IH]; intros m Hq; [reflexivity|].
  change (run (i :: sch) m) with (run sch (step_at i m)).
  destruct (step_at_quiet i m Hq) as [Hw Hq']. by rewrite IH.
Qed.

(** *** The read of line 48 never meets an empty slot *)

Lemma step_loads_safely t s w :
  t <> Panicked -> (t = AtLoad -> is_Some (randaoDomain s)) ->
  (step t s w).1.1 <> Panicked
  /\ ((step t s w).1.1 = AtLoad -> is_Some (randaoDomain (step t s w).1.2))
  /\ (is_Some (randaoDomain s) -> is_Some (randaoDomain (step t s w).1.2)).
Proof.
  intros Hp Hl. destruct t as [c|c|d| |r|]; cbn [prysmgrpc.step].
  - destruct (randaoDomain s) eqn:Hs; cbn; rewrite ?Hs; repeat split; done.
  - unfold GetBeaconConfig.
    destruct (conn s _ _) as [cfg|e]; [|cbn; repeat split; done].
    destruct (Config cfg !! "DomainRandao") as [val|];
      [|cbn; repeat split; done].
    destruct (parse val) as [tmp [e|]]; cbn; repeat split; done.
  - cbn. repeat split; done.
  - destruct (Hl eq_refl) as [d Hd]. rewrite Hd. cbn. rewrite Hd.
    repeat split; done.
  - cbn. repeat split; done.
  - done.
Qed.

Lemma step_at_loads_safely i m : loads_safely m -> loads_safely (step_at i m).
Proof.
  unfold loads_safely, prysmgrpc.step_at. intros Hall.
  destruct (callers m !! i) as [t|] eqn:Ht; [|done].
  destruct (proj1 (Forall_lookup _ _) Hall i t Ht) as [Hp Hl].
  destruct (step_loads_safely t (svc m) (world m) Hp Hl) as (Hp' & Hl' & Hmono).
  destruct (step t (svc m) (world m)) as [[t' s'] w'].
  cbn [fst snd svc callers] in *. apply Forall_insert; [|done].
  eapply Forall_impl; [exact Hall|]. cbn. intros t0 [H0 H1].
  split; [exact H0|]. intros Heq. apply Hmono, H1, Heq.
Qed.

Lemma run_loads_safely schedule m :
  loads_safely m -> loads_safely (run schedule m).
Proof.
  revert m. induction schedule as [|i sch IH]; intros m Hm; [done|].
  change (run (i :: sch) m) with (run sch (step_at i m)).
  by apply IH, step_at_loads_safely.
Qed.

(** No call started on a service ever faults, however the calls overlap. *)
Lemma RANDAODomain_never_faults s w (ctxs : list Context) schedule :
  Forall (fun t => t <> Panicked)
    (callers (run schedule (mkMachine s w (AtCheck <$> ctxs)))).
Proof.
  eapply Forall_impl.
  - apply (run_loads_safely schedule (mkMachine s w (AtCheck <$> ctxs))).
    unfold loads_safely. cbn. apply Forall_fmap, Forall_true. done.
  - cbn. by intros t [H _].
Qed.

(** *** Every value in flight was decoded from an answer of the node *)

Lemma step_traced c0 t s w :
  conn s = c0 ->
  (forall d, randaoDomain s = Some d -> decoded parse c0 d) ->
  holds_decoded parse c0 t ->
  conn (step t s w).1.2 = c0
  /\ (forall d, randaoDomain (step t s w).1.2 = Some d -> decoded parse c0 d)
  /\ holds_decoded parse c0 (step t s w).1.1.
Proof.
  intros Hc Hs Ht. destruct t as [c|c|d'| |[d' oe]|]; cbn [prysmgrpc.step].
  - destruct (randaoDomain s) eqn:Hd; cbn; repeat split; try done.
    all: intros d0 Hd0; apply Hs; congruence.
  - unfold GetBeaconConfig.
    destruct (conn s _ _) as [cfg|e] eqn:Ha; [|cbn; repeat split; done].
    destruct (Config cfg !! "DomainRandao") as [val|] eqn:Hk;
      [|cbn; repeat split; done].
    destruct (parse val) as [tmp [e|]] eqn:Hp; cbn; repeat split; try done.
    rewrite <- Hc. by exists (length (requests w)),
      (WithTimeout (now w) c (timeout s)), cfg, val, tmp.
  - cbn. repeat split; try done. by intros d [= <-].
  - destruct (randaoDomain s) as [d|] eqn:Hd; cbn; repeat split; try done.
    all: try (intros d0 Hd0; apply Hs; congruence).
    by apply Hs.
  - cbn. repeat split; done.
  - cbn. repeat split; done.
Qed.

Lemma step_at_traced c0 i m : traced c0 m -> traced c0 (step_at i m).
Proof.
  intros (Hc & Hs & Hf). unfold prysmgrpc.step_at.
  destruct (callers m !! i) as [t|] eqn:Ht; [|done].
  assert (holds_decoded parse c0 t) as Hp.
  { rewrite Forall_lookup in Hf. by eapply Hf. }
  destruct (step_traced c0 t (svc m) (world m) Hc Hs Hp) as (Hc' & Hs' & Hp').
  destruct (step t (svc m) (world m)) as [[t' s'] w']. cbn in *.
  split; [done|]. split; [done|]. cbn. by apply Forall_insert.
Qed.

Lemma run_traced c0 schedule m : traced c0 m -> traced c0 (run schedule m).
Proof.
  revert m. induction schedule as [|i sch IH]; intros m Ht; [done|].
  change (run (i :: sch) m) with (run sch (step_at i m)).
  by apply IH, step_at_traced.
Qed.

Lemma decoded_agree c0 d1 d2 :
  same_answers c0 -> decoded parse c0 d1 -> decoded parse c0 d2 -> d1 = d2.
Proof.
  intros Hsame (n1 & x1 & cfg1 & val1 & tmp1 & Ha1 & Hk1 & Hp1 & ->)
               (n2 & x2 & cfg2 & val2 & tmp2 & Ha2 & Hk2 & Hp2 & ->).
  pose proof (Hsame _ _ _ _ _ _ Ha1 Ha2) as Heq.
  rewrite Hk1, Hk2 in Heq. injection Heq as ->.
  rewrite Hp1 in Hp2. by injection Hp2 as ->.
Qed.

(** C1, as amended: however the statements of any number of calls on one
    service are interleaved, each call sends at most one request, so the
    requests sent are at most as many as the calls; calls made once the
    slot is filled send none and leave the world as it is; and when the
    node gives the key one value in all its answers, any two calls that
    return without error return the same domain. *)
Theorem RANDAODomain_interleaved s w (ctxs : list Context) (schedule : list nat) :
  let m := run schedule (mkMachine s w (AtCheck <$> ctxs)) in
  length (requests (world m)) <= length (requests w) + length ctxs
  /\ (is_Some (randaoDomain s) -> world m = w)
  /\ (randaoDomain s = None -> same_answers (conn s) ->
      forall i j d1 d2,
        callers m !! i = Some (Returned (d1, None)) ->
        callers m !! j = Some (Returned (d2, None)) ->
        d1 = d2).
Proof.
  intros m. split; [|split].
  - pose proof (run_budget schedule (mkMachine s w (AtCheck <$> ctxs))) as Hb.
    cbn [world callers] in Hb. rewrite pending_fresh in Hb. fold m in Hb. lia.
  - intros Hs. apply (run_quiet schedule (mkMachine s w (AtCheck <$> ctxs))).
    split; [done|]. cbn. apply Forall_fmap, Forall_true. done.
  - intros Hs Hsame i j d1 d2 Hi Hj.
    assert (traced (conn s) m) as (_ & _ & Hf).
    { apply run_traced. split; [done|]. split.
      - cbn. rewrite Hs. done.
      - cbn. apply Forall_fmap, Forall_true. done. }
    rewrite Forall_lookup in Hf.
    apply (decoded_agree (conn s)); [done| |].
    + apply (Hf i _ Hi).
    + apply (Hf j _ Hj).
Qed.

End Interleaved.

(** ** [RANDAODomain] on a filled slot, and the scenario of the specification *)

Section Cached.
Import errors context phase0 prysmgrpc calls.

(** C2: on a service whose slot is filled, every call returns the cached
    domain and leaves the service and the world, with its log of requests,
    as they were; a call that returned without error has filled the slot
    with what it returned, so that every later call is such a call.  With
    the hex parser of the specification and a node whose first answer is
    the map with "DomainRandao" set to "0x01000000", the first call
    returns the bytes 01 00 00 00 after one request, and the second call
    returns the same bytes without sending anything, whatever the node
    would then answer. *)
Theorem RANDAODomain_cached_without_io :
  (forall parse Quote s c w d,
      randaoDomain s = Some d ->
      RANDAODomain parse Quote s c w = (s, w, (d, None)))
  /\ (forall parse Quote s c w s1 w1 d,
        RANDAODomain parse Quote s c w = (s1, w1, (d, None)) ->
        forall c2 w2,
          RANDAODomain parse Quote s1 c2 w2 = (s1, w2, (d, None)))
  /\ (forall Quote (node : ClientConn) t now0 c c2,
        node 0 (WithTimeout now0 c t) = inl stub.randao_config ->
        let first :=
          RANDAODomain configparser.parseConfigByteArray Quote
            (mkService node t None) c (mkWorld now0 []) in
        let second :=
          RANDAODomain configparser.parseConfigByteArray Quote
            first.1.1 c2 first.1.2 in
        first.2 = ([x01; x00; x00; x00], None)
        /\ length (requests first.1.2) = 1
        /\ second.2 = ([x01; x00; x00; x00], None)
        /\ second.1.2 = first.1.2
        /\ second.1.1 = first.1.1).
Proof.
  split; [|split].
  - intros parse Quote s c w d Hs. by apply RANDAODomain_hit.
  - intros parse Quote s c w s1 w1 d H c2 w2.
    apply RANDAODomain_hit. by eapply RANDAODomain_success_populates.
  - intros Quote node t now0 c c2 Hnode first second.
    assert (first = (mkService node t (Some [x01; x00; x00; x00]),
                     mkWorld now0 [WithTimeout now0 c t],
                     ([x01; x00; x00; x00], None))) as Hfirst.
    { unfold first.
      apply (RANDAODomain_decoded _ Quote (mkService node t None) c
               (mkWorld now0 []) stub.randao_config "0x01000000"
               [x01; x00; x00; x00]); [reflexivity|exact Hnode|reflexivity..]. }
    unfold second. rewrite Hfirst. cbn [fst snd].
    erewrite RANDAODomain_hit by reflexivity. done.
Qed.

Lemma RANDAODomain_cached_without_io_witness :
  let first := stub.RANDAODomain (stub.fresh stub.once) Background stub.dawn in
  let second := stub.RANDAODomain first.1.1 Background first.1.2 in
  stub.once 0 (WithTimeout 0 Background (5 * tekuhttp.second))
  = inl stub.randao_config
  /\ stub.once 1 (WithTimeout 0 Background (5 * tekuhttp.second))
     = inr (foreign "transport is closing")
  /\ first.2 = ([x01; x00; x00; x00], None)
  /\ length (requests first.1.2) = 1
  /\ second.2 = ([x01; x00; x00; x00], None)
  /\ second.1.2 = first.1.2
  /\ second.1.1 = first.1.1.
Proof.
  intros first second. split; [reflexivity|]. split; [reflexivity|].
  apply (proj2 (proj2 RANDAODomain_cached_without_io) stub.Quote stub.once
           (5 * tekuhttp.second)%Z 0%Z Background Background).
  reflexivity.
Defined.

End Cached.

(** ** The model at work on the stub nodes *)

Section Runs.
Import errors context phase0 prysmgrpc calls interleaving.

Local Abbreviation parse := configparser.parseConfigByteArray.
Local Abbreviation one := [x01; x00; x00; x00].

(** Two callers whose checks of the slot both come before either store:
    two requests reach a node that answers each of them, and both calls
    return the domain.  And two calls one after the other, the first of
    which fails: the second one sends a request again. *)
Lemma RANDAODomain_two_callers_two_requests :
  let m :=
    stub.run [0; 1; 0; 1; 0; 1; 0; 1]
      (mkMachine (stub.fresh stub.steady) stub.dawn
         [AtCheck Background; AtCheck Background]) in
  let first := stub.RANDAODomain (stub.fresh stub.flaky) Background stub.dawn in
  let second := stub.RANDAODomain first.1.1 Background first.1.2 in
  (length (requests (world m)) = 2
   /\ ~ length (requests (world m)) <= 1
   /\ callers m = [Returned (one, None); Returned (one, None)])
  /\ (length (requests second.1.2) = 2 /\ second.2 = (one, None)).
Proof. vm_compute. repeat split; try reflexivity. lia. Qed.

Lemma steady_same_answers : same_answers stub.steady.
Proof. intros n n' x x' cfg cfg' [= <-] [= <-]. reflexivity. Qed.

Lemma RANDAODomain_interleaved_witness :
  let m :=
    stub.run [0; 1; 0; 1; 0; 1; 0; 1]
      (mkMachine (stub.fresh stub.steady) stub.dawn
         (AtCheck <$> [Background; Background])) in
  length (requests (world m)) <= 0 + 2
  /\ (forall d1 d2,
        callers m !! 0 = Some (Returned (d1, None)) ->
        callers m !! 1 = Some (Returned (d2, None)) -> d1 = d2)
  /\ world (stub.run [1; 0; 0; 1; 1]
              (mkMachine (set_randaoDomain (stub.fresh stub.steady) one)
                 stub.dawn (AtCheck <$> [Background; Background])))
     = stub.dawn.
Proof.
  intros m.
  destruct (RANDAODomain_interleaved parse stub.Quote (stub.fresh stub.steady)
              stub.dawn [Background; Background] [0; 1; 0; 1; 0; 1; 0; 1])
    as (Hle & _ & Hsame).
  destruct (RANDAODomain_interleaved parse stub.Quote
              (set_randaoDomain (stub.fresh stub.steady) one)
              stub.dawn [Background; Background] [1; 0; 0; 1; 1])
    as (_ & Hquiet & _).
  split; [exact Hle|]. split.
  - intros d1 d2. apply (Hsame eq_refl steady_same_answers 0 1).
  - apply Hquiet. by exists one.
Defined.

Lemma RANDAODomain_failure_keeps_slot_empty_witness :
  let down := stub.fresh stub.flaky in
  let odd := stub.fresh (stub.serving {[ "DomainRandao" := "0x010" ]}) in
  randaoDomain down = None
  /\ stub.RANDAODomain down Background stub.dawn
     = (down, sent down Background stub.dawn,
        (zero, Some (Wrap (foreign "connection refused") msg_obtain)))
  /\ stub.RANDAODomain odd Background stub.dawn
     = (odd, sent odd Background stub.dawn,
        (zero, Some (Wrap (foreign "invalid byte array")
                       (msg_convert stub.Quote "0x010")))).
Proof.
  intros down odd. split; [reflexivity|]. split.
  - apply (proj1 (RANDAODomain_failure_keeps_slot_empty parse stub.Quote
                    down Background stub.dawn eq_refl)).
    reflexivity.
  - apply (proj1 (proj2 (RANDAODomain_failure_keeps_slot_empty parse stub.Quote
                    odd Background stub.dawn eq_refl))
             (mkBeaconConfig {[ "DomainRandao" := "0x010" ]}) "0x010" []);
      reflexivity.
Defined.

Lemma RANDAODomain_missing_key_is_not_format_error_witness :
  let bare := stub.fresh (stub.serving {[ "DomainDeposit" := "0x03000000" ]}) in
  let odd := stub.fresh (stub.serving {[ "DomainRandao" := "0x010" ]}) in
  randaoDomain bare = None
  /\ stub.RANDAODomain bare Background stub.dawn
     = (bare, sent bare Background stub.dawn, (zero, Some (New msg_missing)))
  /\ stub.RANDAODomain odd Background stub.dawn
     = (odd, sent odd Background stub.dawn,
        (zero, Some (Wrap (foreign "invalid byte array")
                       (msg_convert stub.Quote "0x010")))).
Proof.
  intros bare odd. split; [reflexivity|]. split.
  - apply (proj1 (RANDAODomain_missing_key_is_not_format_error parse stub.Quote
                    bare Background stub.dawn eq_refl)
             (mkBeaconConfig {[ "DomainDeposit" := "0x03000000" ]}));
      reflexivity.
  - apply (proj1 (proj2 (RANDAODomain_missing_key_is_not_format_error parse
                    stub.Quote odd Background stub.dawn eq_refl))
             (mkBeaconConfig {[ "DomainRandao" := "0x010" ]}) "0x010" []);
      reflexivity.
Defined.

Lemma RANDAODomain_copies_at_most_four_bytes_witness :
  let short := stub.fresh (stub.serving {[ "DomainRandao" := "0xAb" ]}) in
  let long := stub.fresh (stub.serving {[ "DomainRandao" := "0x0102030405" ]}) in
  randaoDomain short = None
  /\ (exists d,
        stub.RANDAODomain short Background stub.dawn
        = (set_randaoDomain short d, sent short Background stub.dawn, (d, None))
        /\ d = [xab; x00; x00; x00])
  /\ (exists d,
        stub.RANDAODomain long Background stub.dawn
        = (set_randaoDomain long d, sent long Background stub.dawn, (d, None))
        /\ d = [x01; x02; x03; x04]).
Proof.
  intros short long. split; [reflexivity|]. split.
  - destruct (RANDAODomain_copies_at_most_four_bytes parse stub.Quote short
                Background stub.dawn
                (mkBeaconConfig {[ "DomainRandao" := "0xAb" ]}) "0xAb" [xab]
                eq_refl eq_refl eq_refl eq_refl)
      as (d & Hcall & _ & _ & _ & Hshort & _).
    exists d. split; [exact Hcall|]. apply Hshort. cbn. lia.
  - destruct (RANDAODomain_copies_at_most_four_bytes parse stub.Quote long
                Background stub.dawn
                (mkBeaconConfig {[ "DomainRandao" := "0x0102030405" ]})
                "0x0102030405" [x01; x02; x03; x04; x05]
                eq_refl eq_refl eq_refl eq_refl)
      as (d & Hcall & _ & _ & _ & _ & Hlong).
    exists d. split; [exact Hcall|]. apply Hlong. cbn. lia.
Defined.

(** The context of the request follows the context of the caller: with a
    timeout of five seconds, a caller whose deadline is one second away
    has its request end after one second, and a caller whose context is
    already cancelled has its request sent under a context that is done. *)
Lemma RANDAODomain_request_follows_caller :
  let s := stub.fresh stub.steady in
  let hurried := mkContext (Some tekuhttp.second) false in
  let cancelled := mkContext None true in
  timeout s = (5 * tekuhttp.second)%Z
  /\ requests (stub.RANDAODomain s Background stub.dawn).1.2
     = [mkContext (Some (5 * tekuhttp.second)%Z) false]
  /\ requests (stub.RANDAODomain s hurried stub.dawn).1.2
     = [mkContext (Some tekuhttp.second) false]
  /\ requests (stub.RANDAODomain s cancelled stub.dawn).1.2
     = [mkContext (Some (5 * tekuhttp.second)%Z) true]
  /\ request_of s hurried stub.dawn <> request_of s Background stub.dawn
  /\ request_of s cancelled stub.dawn <> request_of s Background stub.dawn.
Proof. vm_compute. repeat split; try reflexivity; discriminate. Qed.

Lemma RANDAODomain_request_context_witness :
  let s := stub.fresh stub.steady in
  let hurried := mkContext (Some tekuhttp.second) false in
  randaoDomain s = None
  /\ requests (stub.RANDAODomain s hurried stub.dawn).1.2
     = [] ++ [WithTimeout 0 hurried (5 * tekuhttp.second)]
  /\ deadline (WithTimeout 0 hurried (5 * tekuhttp.second))
     = Some (Z.min tekuhttp.second (0 + 5 * tekuhttp.second)).
Proof.
  intros s hurried. split; [reflexivity|].
  destruct (RANDAODomain_request_context parse stub.Quote s hurried stub.dawn
              eq_refl) as (Hsent & _ & Hdeadline & _).
  split; [exact Hsent|exact Hdeadline].
Defined.

End Runs.

(** ** tekuhttp: the constructor, the accessors and [close] *)

Section Teku.
Import errors context tekuhttp.

Context {URL Handler Time World Param : Type}.
Variable parseAndCheckParameters : list Param -> parameters + error.
Variable url_Parse : string -> URL + error.
Variable GenesisTime :
  Service URL Handler Time -> Context -> World ->
  Service URL Handler Time * World * (Time * option error).

Local Abbreviation Service := (Service URL Handler Time).
Local Abbreviation New := (New parseAndCheckParameters url_Parse GenesisTime).
Local Abbreviation fetchStaticValues := (fetchStaticValues GenesisTime).
Local Abbreviation keeps_address := (keeps_address GenesisTime).

(** The three ways [New] can fail, and the way it succeeds. *)
Lemma New_bad_parameters c params w e :
  parseAndCheckParameters params = inr e ->
  New c params w = mkBuilt None (Some (Wrap e "problem with parameters")) w None.
Proof. intros H. unfold tekuhttp.New. by rewrite H. Qed.

Lemma New_bad_url c params w p e :
  parseAndCheckParameters params = inl p ->
  url_Parse (base_address (p_address p)) = inr e ->
  New c params w = mkBuilt None (Some (Wrap e "invalid URL")) w None.
Proof. intros H Hu. unfold tekuhttp.New. by rewrite H, Hu. Qed.

Lemma New_unreachable c params w p u s1 w1 t e :
  parseAndCheckParameters params = inl p ->
  url_Parse (base_address (p_address p)) = inl u ->
  GenesisTime (as_built c u p) c w = (s1, w1, (t, Some e)) ->
  New c params w
  = mkBuilt None
      (Some (Wrap (Wrap e "failed to fetch genesis time")
               "failed to confirm node connection")) w1 None.
Proof.
  intros H Hu Hg. unfold tekuhttp.New, tekuhttp.fetchStaticValues.
  rewrite H, Hu. unfold as_built in Hg. by rewrite Hg.
Qed.

Lemma New_reachable c params w p u s1 w1 t :
  parseAndCheckParameters params = inl p ->
  url_Parse (base_address (p_address p)) = inl u ->
  GenesisTime (as_built c u p) c w = (s1, w1, (t, None)) ->
  New c params w = mkBuilt (Some s1) None w1 (Some c).
Proof.
  intros H Hu Hg. unfold tekuhttp.New, tekuhttp.fetchStaticValues.
  rewrite H, Hu. unfold as_built in Hg. by rewrite Hg.
Qed.

(** A service comes out of [New] only through the probe. *)
Lemma New_service_inv c params w s :
  service (New c params w) = Some s ->
  exists p u t,
    parseAndCheckParameters params = inl p
    /\ url_Parse (base_address (p_address p)) = inl u
    /\ GenesisTime (as_built c u p) c w = (s, after (New c params w), (t, None))
    /\ New c params w = mkBuilt (Some s) None (after (New c params w)) (Some c).
Proof.
  destruct (parseAndCheckParameters params) as [p|e] eqn:H.
  2: { by rewrite (New_bad_parameters c params w e H). }
  destruct (url_Parse (base_address (p_address p))) as [u|e] eqn:Hu.
  2: { by rewrite (New_bad_url c params w p e H Hu). }
  destruct (GenesisTime (as_built c u p) c w) as [[s1 w1] [t [e|]]] eqn:Hg.
  { by rewrite (New_unreachable c params w p u s1 w1 t e H Hu Hg). }
  rewrite (New_reachable c params w p u s1 w1 t H Hu Hg). cbn.
  intros [= <-]. by exists p, u, t.
Qed.

(** C5: a service returned by [New] went through the probe: the options
    parsed, the address made a URL, [GenesisTime] was called on the new
    service and returned no error, and the world [New] leaves is the world
    after that call.  When the probe fails, [New] returns the nil service
    and the probe's error wrapped as a failure to confirm the node
    connection, and starts no watcher.  In every case [New] returns either
    a service or an error, never both and never neither. *)
Theorem New_probes_before_returning c params w :
  (forall s,
      service (New c params w) = Some s ->
      err (New c params w) = None
      /\ exists p u t,
          parseAndCheckParameters params = inl p
          /\ url_Parse (base_address (p_address p)) = inl u
          /\ GenesisTime (as_built c u p) c w
             = (s, after (New c params w), (t, None)))
  /\ (forall p u s1 w1 t e,
        parseAndCheckParameters params = inl p ->
        url_Parse (base_address (p_address p)) = inl u ->
        GenesisTime (as_built c u p) c w = (s1, w1, (t, Some e)) ->
        New c params w
        = mkBuilt None
            (Some (Wrap (Wrap e "failed to fetch genesis time")
                     "failed to confirm node connection")) w1 None)
  /\ (service (New c params w) = None <-> is_Some (err (New c params w))).
Proof.
  split; [|split].
  - intros s Hs. destruct (New_service_inv c params w s Hs)
      as (p & u & t & Hp & Hu & Hg & Hnew).
    split; [by rewrite Hnew|]. by exists p, u, t.
  - intros p u s1 w1 t e. apply New_unreachable.
  - destruct (parseAndCheckParameters params) as [p|e] eqn:H.
    2: { rewrite (New_bad_parameters c params w e H). cbn. split; eauto. }
    destruct (url_Parse (base_address (p_address p))) as [u|e] eqn:Hu.
    2: { rewrite (New_bad_url c params w p e H Hu). cbn. split; eauto. }
    destruct (GenesisTime (as_built c u p) c w) as [[s1 w1] [t [e|]]] eqn:Hg.
    { rewrite (New_unreachable c params w p u s1 w1 t e H Hu Hg). cbn.
      split; eauto. }
    rewrite (New_reachable c params w p u s1 w1 t H Hu Hg). cbn.
    split; [done|]. by intros [x Hx].
Qed.

(** C8: [Name] is the text "Teku (HTTP)" for every service, and [Address]
    is the address field, which for a service returned by [New] is the
    address of the parsed options, provided [GenesisTime] leaves the
    address alone.  Both are functions of the service and nothing else. *)
Theorem Name_and_Address c params w s :
  keeps_address ->
  service (New c params w) = Some s ->
  Name s = "Teku (HTTP)"
  /\ (forall s' : Service, Name s' = Name s)
  /\ Address s = address s
  /\ exists p, parseAndCheckParameters params = inl p
               /\ Address s = p_address p.
Proof.
  intros Hkeep Hs. repeat split.
  destruct (New_service_inv c params w s Hs) as (p & u & t & Hp & Hu & Hg & _).
  exists p. split; [done|].
  destruct (Hkeep (as_built c u p) c w) as [Ha _]. rewrite Hg in Ha.
  exact Ha.
Qed.

(** C9: when the configured address does not start with "http", the base
    URL of the service [New] returns is the one parsed from "http://"
    followed by that address, while [Address] is the address as it was
    configured. *)
Theorem New_prepends_scheme_to_base_only c params w p s :
  keeps_address ->
  parseAndCheckParameters params = inl p ->
  String.prefix "http" (p_address p) = false ->
  service (New c params w) = Some s ->
  base_address (p_address p) = "http://" +:+ p_address p
  /\ url_Parse ("http://" +:+ p_address p) = inl (base s)
  /\ Address s = p_address p.
Proof.
  intros Hkeep Hp Hpre Hs.
  destruct (New_service_inv c params w s Hs) as (p' & u & t & Hp' & Hu & Hg & _).
  rewrite Hp in Hp'. injection Hp' as <-.
  assert (base_address (p_address p) = "http://" +:+ p_address p) as Hb.
  { unfold base_address. by rewrite Hpre. }
  destruct (Hkeep (as_built c u p) c w) as [Ha Hbase]. rewrite Hg in Ha, Hbase.
  split; [exact Hb|]. split; [|exact Ha].
  rewrite <- Hb, Hu. cbn in Hbase. by rewrite Hbase.
Qed.

(** [close] on a service whose registry is not locked. *)
Lemma close_unlocked (s : Service) :
  beaconChainHeadUpdatedMutex s = Unlocked ->
  close s = Some (set_handlers s []).
Proof.
  intros H. unfold close, close_lock, close_unlock, close_clear.
  rewrite H. cbn. destruct s; cbn in *. by subst.
Qed.

(** C7: on a service whose registry lock is free, [close] takes the write
    lock, replaces the handlers by the empty list while it holds the lock,
    and releases it: the service is left with no handler, the lock free
    and every other field as it was.  Closing again, any number of times,
    and by the watcher of [New] once its context is done, gives that same
    service. *)
Theorem close_idempotent (s : Service) :
  beaconChainHeadUpdatedMutex s = Unlocked ->
  exists s1 s',
    close_lock s = Some s1
    /\ beaconChainHeadUpdatedMutex s1 = WriteLocked
    /\ beaconChainHeadUpdatedMutex (close_clear s1) = WriteLocked
    /\ beaconChainHeadUpdatedHandlers (close_clear s1) = []
    /\ close_unlock (close_clear s1) = Some s'
    /\ close s = Some s'
    /\ s' = set_handlers s []
    /\ beaconChainHeadUpdatedHandlers s' = []
    /\ beaconChainHeadUpdatedMutex s' = Unlocked
    /\ close s' = Some s'
    /\ (forall n, close_times (S n) s = Some s')
    /\ (forall c, isDone c = true -> watcher c s = Some s' /\ watcher c s' = Some s').
Proof.
  intros H. exists (set_mutex s WriteLocked), (set_handlers s []).
  assert (close (set_handlers s []) = Some (set_handlers s [])) as Hagain.
  { by rewrite close_unlocked. }
  split; [unfold close_lock; by rewrite H|].
  do 3 (split; [reflexivity|]).
  split; [destruct s; cbn in *; by subst|].
  split; [by apply close_unlocked|].
  do 2 (split; [reflexivity|]).
  split; [exact H|]. split; [exact Hagain|]. split.
  - intros n. cbn [close_times]. rewrite (close_unlocked s H). cbn.
    induction n as [|n IH]; [reflexivity|].
    cbn [close_times]. rewrite Hagain. exact IH.
  - intros c Hc. unfold watcher. rewrite Hc.
    split; [by apply close_unlocked|exact Hagain].
Qed.

End Teku.

(** ** The constructor at work on the stub nodes *)

Section TekuRuns.
Import errors context tekuhttp.

Local Abbreviation configured :=
  (mkParameters 0 "localhost:5051" (5 * second)).
Local Abbreviation probed :=
  (stub.set_genesisTime
     (as_built Background "http://localhost:5051" configured) 1606824023).

Lemma GenesisTime_up_keeps_address : keeps_address stub.GenesisTime_up.
Proof.
  intros s c w. unfold stub.GenesisTime_up.
  destruct (genesisTime s); split; reflexivity.
Qed.

Lemma New_up_service :
  service (stub.New_up Background stub.options []) = Some probed.
Proof. reflexivity. Qed.

Lemma New_probes_before_returning_witness :
  (err (stub.New_up Background stub.options []) = None
   /\ after (stub.New_up Background stub.options []) = ["http://localhost:5051"])
  /\ stub.New_down Background stub.options []
     = mkBuilt None
         (Some (Wrap (Wrap (foreign "connection refused")
                        "failed to fetch genesis time")
                  "failed to confirm node connection"))
         ["http://localhost:5051"] None.
Proof.
  split.
  - destruct (proj1 (New_probes_before_returning stub.parseAndCheckParameters
                       stub.url_Parse stub.GenesisTime_up Background
                       stub.options []) probed New_up_service)
      as (Herr & _).
    split; [exact Herr|reflexivity].
  - apply (proj1 (proj2 (New_probes_before_returning
                           stub.parseAndCheckParameters stub.url_Parse
                           stub.GenesisTime_down Background stub.options []))
             configured "http://localhost:5051"
             (as_built Background "http://localhost:5051" configured)
             ["http://localhost:5051"] 0%Z (foreign "connection refused"));
      reflexivity.
Defined.

Lemma Name_and_Address_witness :
  service (stub.New_up Background stub.options []) = Some probed
  /\ Name probed = "Teku (HTTP)"
  /\ exists p, stub.parseAndCheckParameters stub.options = inl p
               /\ Address probed = p_address p
               /\ p_address p = "localhost:5051".
Proof.
  split; [reflexivity|].
  destruct (Name_and_Address stub.parseAndCheckParameters stub.url_Parse
              stub.GenesisTime_up Background stub.options [] probed
              GenesisTime_up_keeps_address New_up_service)
    as (Hname & _ & _ & p & Hp & Haddr).
  split; [exact Hname|]. exists p. split; [exact Hp|]. split; [exact Haddr|].
  rewrite <- Haddr. reflexivity.
Defined.

Lemma New_prepends_scheme_to_base_only_witness :
  String.prefix "http" "localhost:5051" = false
  /\ stub.url_Parse "http://localhost:5051" = inl (base probed)
  /\ base probed = "http://localhost:5051"
  /\ Address probed = "localhost:5051".
Proof.
  split; [reflexivity|].
  destruct (New_prepends_scheme_to_base_only stub.parseAndCheckParameters
              stub.url_Parse stub.GenesisTime_up Background stub.options []
              configured probed GenesisTime_up_keeps_address
              eq_refl eq_refl New_up_service)
    as (_ & Hbase & Haddr).
  split; [exact Hbase|]. split; [reflexivity|exact Haddr].
Defined.

Lemma close_idempotent_witness :
  beaconChainHeadUpdatedMutex stub.busy = Unlocked
  /\ beaconChainHeadUpdatedHandlers stub.busy = [7; 9]
  /\ exists s',
      close stub.busy = Some s'
      /\ beaconChainHeadUpdatedHandlers s' = []
      /\ close_times 3 stub.busy = Some s'.
Proof.
  split; [reflexivity|]. split; [reflexivity|].
  destruct (close_idempotent stub.busy eq_refl)
    as (s1 & s' & _ & _ & _ & _ & _ & Hclose & _ & Hnone & _ & _ & Htimes & _).
  exists s'. split; [exact Hclose|]. split; [exact Hnone|]. apply Htimes.
Defined.

End TekuRuns.

(** ** Calls of [RANDAODomain] one after the other *)

Section InTurn.
Import errors context phase0 prysmgrpc calls sequence.

Variable parse : string -> list byte * option error.
Variable Quote : string -> string.

Local Abbreviation RANDAODomain := (RANDAODomain parse Quote).
Local Abbreviation calls_in_turn := (calls_in_turn parse Quote).
Local Abbreviation went := (went parse Quote).
Local Abbreviation advance := (advance parse Quote).
Local Abbreviation step_at := (step_at parse Quote).
Local Abbreviation run := (run parse Quote).

Lemma calls_in_turn_cons s w c rest :
  calls_in_turn s w (c :: rest)
  = ((calls_in_turn (RANDAODomain s c w).1.1 (RANDAODomain s c w).1.2 rest).1.1,
     (calls_in_turn (RANDAODomain s c w).1.1 (RANDAODomain s c w).1.2 rest).1.2,
     (RANDAODomain s c w).2
     :: (calls_in_turn (RANDAODomain s c w).1.1 (RANDAODomain s c w).1.2 rest).2).
Proof.
  cbn [sequence.calls_in_turn].
  destruct (RANDAODomain s c w) as [[s1 w1] r]. cbn [fst snd].
  destruct (calls_in_turn s1 w1 rest) as [[s2 w2] rs]. reflexivity.
Qed.

(** On a filled slot every call in turn is a hit. *)
Lemma calls_in_turn_hit s w ctxs d :
  randaoDomain s = Some d ->
  calls_in_turn s w ctxs = (s, w, (fun _ => (d, None)) <$> ctxs).
Proof.
  intros Hs. induction ctxs as [|c rest IH]; [reflexivity|].
  rewrite calls_in_turn_cons, (RANDAODomain_hit parse Quote s c w d Hs).
  cbn [fst snd]. rewrite IH. reflexivity.
Qed.

Lemma failures_hits (ctxs : list Context) (d : DomainType) :
  failures ((fun _ => (d, None)) <$> ctxs) = 0.
Proof.
  unfold failures. induction ctxs as [|c rest IH]; [reflexivity|].
  cbn [fmap list_fmap]. rewrite filter_cons_False; [exact IH|]. cbn. done.
Qed.

Lemma failures_cons_error d e rs : failures ((d, Some e) :: rs) = S (failures rs).
Proof. unfold failures. rewrite filter_cons_True; [reflexivity|]. reflexivity. Qed.

Lemma failures_cons_ok d rs : failures ((d, None) :: rs) = failures rs.
Proof. unfold failures. rewrite filter_cons_False; [reflexivity|]. cbn. done. Qed.

(** X1: over calls made in turn, every call that fails has sent one
    request, and all the calls that succeed have together sent one request
    if they found the slot empty and none if it was filled: the requests
    sent are the failures, plus one when the slot went from empty to
    filled. *)
Theorem calls_in_turn_requests s w ctxs :
  length (requests (calls_in_turn s w ctxs).1.2)
  = length (requests w) + failures (calls_in_turn s w ctxs).2
    + match randaoDomain s, randaoDomain (calls_in_turn s w ctxs).1.1 with
      | None, Some _ => 1
      | _, _ => 0
      end.
Proof.
  revert s w. induction ctxs as [|c rest IH]; intros s w.
  { cbn. destruct (randaoDomain s); lia. }
  rewrite calls_in_turn_cons. cbn [fst snd].
  pose proof (RANDAODomain_went parse Quote s c w) as Hw.
  destruct (RANDAODomain s c w) as [[s1 w1] r] eqn:Hcall. cbn [fst snd].
  inversion Hw as [d Hs|e Hs Ha|cfg Hs Ha Hk|cfg val tmp e Hs Ha Hk Hp
                   |cfg val tmp Hs Ha Hk Hp]; subst.
  - rewrite failures_cons_ok. apply IH.
  - rewrite failures_cons_error, IH. cbn. rewrite length_app. cbn. lia.
  - rewrite failures_cons_error, IH. cbn. rewrite length_app. cbn. lia.
  - rewrite failures_cons_error, IH. cbn. rewrite length_app. cbn. lia.
  - rewrite (calls_in_turn_hit _ _ rest (copy zero tmp)) by reflexivity.
    cbn [fst snd]. rewrite failures_cons_ok, failures_hits, Hs.
    cbn. rewrite length_app. cbn. lia.
Qed.

(** A result without error is what the slot holds in the end. *)
Lemma calls_in_turn_slot s w ctxs d :
  (d, None) ∈ (calls_in_turn s w ctxs).2 ->
  randaoDomain (calls_in_turn s w ctxs).1.1 = Some d.
Proof.
  revert s w. induction ctxs as [|c rest IH]; intros s w.
  { cbn. intros H. by apply elem_of_nil in H. }
  rewrite calls_in_turn_cons. cbn [fst snd].
  pose proof (RANDAODomain_went parse Quote s c w) as Hw.
  destruct (RANDAODomain s c w) as [[s1 w1] r] eqn:Hcall. cbn [fst snd].
  inversion Hw as [d0 Hs|e Hs Ha|cfg Hs Ha Hk|cfg val tmp e Hs Ha Hk Hp
                   |cfg val tmp Hs Ha Hk Hp]; subst.
  - rewrite (calls_in_turn_hit _ _ rest d0 Hs). cbn [fst snd].
    intros [[= ->]|(x & [= ->] & _)%list_elem_of_fmap]%elem_of_cons; exact Hs.
  - intros [[=]|Hin]%elem_of_cons. by apply IH.
  - intros [[=]|Hin]%elem_of_cons. by apply IH.
  - intros [[=]|Hin]%elem_of_cons. by apply IH.
  - rewrite (calls_in_turn_hit _ _ rest (copy zero tmp)) by reflexivity.
    cbn [fst snd].
    intros [[= ->]|(x & [= ->] & _)%list_elem_of_fmap]%elem_of_cons;
      reflexivity.
Qed.

(** X2: calls made in turn that return without error all return the same
    domain, which is the one the slot holds in the end, whatever the node
    answers from one request to the next. *)
Theorem calls_in_turn_agree s w ctxs d1 d2 :
  (d1, None) ∈ (calls_in_turn s w ctxs).2 ->
  (d2, None) ∈ (calls_in_turn s w ctxs).2 ->
  d1 = d2 /\ randaoDomain (calls_in_turn s w ctxs).1.1 = Some d1.
Proof.
  intros H1 H2.
  pose proof (calls_in_turn_slot s w ctxs d1 H1) as E1.
  pose proof (calls_in_turn_slot s w ctxs d2 H2) as E2.
  split; [congruence|exact E1].
Qed.

End InTurn.

(** ** Schedules: one caller after the other, and any at all *)

Section Pace.
Import errors context phase0 prysmgrpc calls interleaving sequence.

Variable parse : string -> list byte * option error.
Variable Quote : string -> string.

Local Abbreviation RANDAODomain := (RANDAODomain parse Quote).
Local Abbreviation calls_in_turn := (calls_in_turn parse Quote).
Local Abbreviation advance := (advance parse Quote).
Local Abbreviation step := (step parse Quote).
Local Abbreviation step_at := (step_at parse Quote).
Local Abbreviation run := (run parse Quote).

Lemma run_app sch1 sch2 m : run (sch1 ++ sch2) m = run sch2 (run sch1 m).
Proof. apply fold_left_app. Qed.

(** Four statements take a call from its beginning to its end. *)
Lemma four_statements s c w :
  Nat.iter 4 advance (AtCheck c, s, w)
  = ((Returned (RANDAODomain s c w).2), (RANDAODomain s c w).1.1,
     (RANDAODomain s c w).1.2).
Proof.
  unfold prysmgrpc.RANDAODomain. cbn [Nat.iter nat_rect].
  unfold sequence.advance at 4. cbn [fst snd prysmgrpc.step].
  destruct (randaoDomain s) as [d|] eqn:Hs.
  { unfold sequence.advance. cbn. rewrite Hs. reflexivity. }
  unfold sequence.advance at 3. cbn [fst snd prysmgrpc.step].
  unfold GetBeaconConfig.
  destruct (conn s _ _) as [cfg|e]; [|reflexivity].
  destruct (Config cfg !! "DomainRandao") as [val|]; [|reflexivity].
  destruct (parse val) as [tmp [e|]]; reflexivity.
Qed.

Lemma step_at_middle pre t post s w :
  step_at (length pre) (mkMachine s w (pre ++ t :: post))
  = mkMachine (advance (t, s, w)).1.2 (advance (t, s, w)).2
      (pre ++ (advance (t, s, w)).1.1 :: post).
Proof.
  unfold prysmgrpc.step_at, sequence.advance. cbn [callers svc world fst snd].
  rewrite list_lookup_middle by reflexivity.
  destruct (step t s w) as [[t' s'] w']. cbn [fst snd].
  rewrite insert_app_r_alt by lia. rewrite Nat.sub_diag. reflexivity.
Qed.

Lemma run_replicate_middle n pre t post s w :
  run (replicate n (length pre)) (mkMachine s w (pre ++ t :: post))
  = mkMachine (Nat.iter n advance (t, s, w)).1.2
      (Nat.iter n advance (t, s, w)).2
      (pre ++ (Nat.iter n advance (t, s, w)).1.1 :: post).
Proof.
  revert t s w. induction n as [|n IH]; intros t s w; [reflexivity|].
  rewrite Nat.iter_succ_r.
  change (run (replicate (S n) (length pre)) ?m)
    with (run (replicate n (length pre)) (step_at (length pre) m)).
  rewrite step_at_middle.
  destruct (advance (t, s, w)) as [[t' s'] w']. cbn [fst snd]. apply IH.
Qed.

Lemma one_by_one_succ k n :
  one_by_one k (S n) = replicate 4 k ++ one_by_one (S k) n.
Proof. reflexivity. Qed.

Lemma run_one_by_one pre s w ctxs :
  run (one_by_one (length pre) (length ctxs))
    (mkMachine s w (pre ++ (AtCheck <$> ctxs)))
  = mkMachine (calls_in_turn s w ctxs).1.1 (calls_in_turn s w ctxs).1.2
      (pre ++ (Returned <$> (calls_in_turn s w ctxs).2)).
Proof.
  revert pre s w. induction ctxs as [|c rest IH]; intros pre s w; [reflexivity|].
  cbn [length]. rewrite one_by_one_succ, run_app. cbn [fmap list_fmap].
  rewrite run_replicate_middle, four_statements. cbn [fst snd].
  rewrite (calls_in_turn_cons parse Quote). cbn [fst snd fmap list_fmap].
  rewrite (cons_middle (Returned _) pre), (cons_middle (Returned _) pre).
  rewrite !app_assoc.
  replace (S (length pre)) with (length (pre ++ [Returned (RANDAODomain s c w).2]))
    by (rewrite length_app; cbn; lia).
  apply IH.
Qed.

(** X3: when the scheduler lets the callers run one after the other, each
    from its first statement to its last, the interleaved machine ends with
    the service, the world and the results of the same calls made in
    turn. *)
Theorem one_by_one_is_calls_in_turn s w (ctxs : list Context) :
  run (one_by_one 0 (length ctxs)) (mkMachine s w (AtCheck <$> ctxs))
  = mkMachine (calls_in_turn s w ctxs).1.1 (calls_in_turn s w ctxs).1.2
      (Returned <$> (calls_in_turn s w ctxs).2).
Proof. apply (run_one_by_one [] s w ctxs). Qed.

(** *** Every call returns after four statements of its own *)

Lemma step_rank t s w :
  t <> Panicked -> (t = AtLoad -> is_Some (randaoDomain s)) ->
  rank (step t s w).1.1 <= Nat.pred (rank t).
Proof.
  intros Hp Hl. destruct t as [c|c|d| |r|]; cbn [prysmgrpc.step].
  - destruct (randaoDomain s); cbn; lia.
  - unfold GetBeaconConfig.
    destruct (conn s _ _) as [cfg|e]; [|cbn; lia].
    destruct (Config cfg !! "DomainRandao") as [val|]; [|cbn; lia].
    destruct (parse val) as [tmp [e|]]; cbn; lia.
  - cbn. lia.
  - destruct (Hl eq_refl) as [d ->]. cbn. lia.
  - cbn. lia.
  - done.
Qed.

Lemma rank_zero t : t <> Panicked -> rank t = 0 -> exists r, t = Returned r.
Proof. destruct t; intros Hp Hr; try discriminate; [eauto|done]. Qed.

Lemma step_at_other i j m :
  i <> j -> callers (step_at j m) !! i = callers m !! i.
Proof.
  intros Hij. unfold prysmgrpc.step_at.
  destruct (callers m !! j) as [t|]; [|reflexivity].
  destruct (step t (svc m) (world m)) as [[t' s'] w']. cbn [callers].
  by apply list_lookup_insert_ne.
Qed.

Lemma step_at_own i m t :
  callers m !! i = Some t ->
  callers (step_at i m) !! i = Some (step t (svc m) (world m)).1.1.
Proof.
  intros Ht. unfold prysmgrpc.step_at. rewrite Ht.
  destruct (step t (svc m) (world m)) as [[t' s'] w']. cbn [callers fst].
  apply list_lookup_insert_eq. by eapply lookup_lt_Some.
Qed.

Lemma run_returns schedule m i t :
  loads_safely m -> callers m !! i = Some t -> rank t <= turns i schedule ->
  exists r, callers (run schedule m) !! i = Some (Returned r).
Proof.
  revert m t. induction schedule as [|j sch IH]; intros m t Hsafe Ht Hrank.
  { cbn in Hrank. destruct (proj1 (Forall_lookup _ _) Hsafe i t Ht) as [Hp _].
    destruct (rank_zero t Hp) as [r ->]; [lia|]. by exists r. }
  change (run (j :: sch) m) with (run sch (step_at j m)).
  pose proof (step_at_loads_safely parse Quote j m Hsafe) as Hsafe'.
  cbn [turns] in Hrank. destruct (Nat.eqb_spec j i) as [->|Hne].
  - destruct (proj1 (Forall_lookup _ _) Hsafe i t Ht) as [Hp Hl].
    pose proof (step_rank t (svc m) (world m) Hp Hl) as Hstep.
    apply (IH (step_at i m) (step t (svc m) (world m)).1.1 Hsafe').
    + by apply step_at_own.
    + lia.
  - apply (IH (step_at j m) t Hsafe').
    + rewrite step_at_other by done. exact Ht.
    + lia.
Qed.

(** X4: no call waits for another.  However the statements of the calls
    are interleaved, a call that the scheduler has picked four times has
    returned. *)
Theorem RANDAODomain_returns_in_four_turns s w (ctxs : list Context)
    (schedule : list nat) (i : nat) :
  i < length ctxs -> 4 <= turns i schedule ->
  exists r,
    callers (run schedule (mkMachine s w (AtCheck <$> ctxs))) !! i
    = Some (Returned r).
Proof.
  intros Hi Hturns.
  destruct (lookup_lt_is_Some_2 ctxs i Hi) as [c Hc].
  apply (run_returns schedule (mkMachine s w (AtCheck <$> ctxs)) i (AtCheck c)).
  - unfold loads_safely. cbn. apply Forall_fmap, Forall_true. done.
  - cbn [callers]. rewrite list_lookup_fmap, Hc. reflexivity.
  - exact Hturns.
Qed.

(** *** What no interleaving changes *)

Lemma step_keeps t s w :
  conn (step t s w).1.2 = conn s
  /\ timeout (step t s w).1.2 = timeout s
  /\ now (step t s w).2 = now w
  /\ requests w `prefix_of` requests (step t s w).2
  /\ (is_Some (randaoDomain s) -> is_Some (randaoDomain (step t s w).1.2)).
Proof.
  destruct t as [c|c|d| |r|]; cbn [prysmgrpc.step].
  - destruct (randaoDomain s) eqn:Hs; cbn; rewrite ?Hs; repeat split; done.
  - unfold GetBeaconConfig.
    destruct (conn s _ _) as [cfg|e];
      [|cbn; repeat split; try done; by apply prefix_app_r].
    destruct (Config cfg !! "DomainRandao") as [val|];
      [|cbn; repeat split; try done; by apply prefix_app_r].
    destruct (parse val) as [tmp [e|]]; cbn; repeat split; try done;
      by apply prefix_app_r.
  - cbn. repeat split; done.
  - destruct (randaoDomain s) eqn:Hs; cbn; rewrite ?Hs; repeat split; done.
  - cbn. repeat split; done.
  - cbn. repeat split; done.
Qed.

Lemma step_at_keeps i m :
  conn (svc (step_at i m)) = conn (svc m)
  /\ timeout (svc (step_at i m)) = timeout (svc m)
  /\ now (world (step_at i m)) = now (world m)
  /\ requests (world m) `prefix_of` requests (world (step_at i m))
  /\ (is_Some (randaoDomain (svc m)) ->
      is_Some (randaoDomain (svc (step_at i m))))
  /\ length (callers (step_at i m)) = length (callers m).
Proof.
  unfold prysmgrpc.step_at. destruct (callers m !! i) as [t|]; [|done].
  pose proof (step_keeps t (svc m) (world m)) as (Hc & Ht & Hn & Hr & Hs).
  destruct (step t (svc m) (world m)) as [[t' s'] w'].
  cbn [fst snd svc world callers] in *.
  repeat split; try done. apply length_insert.
Qed.

(** X5: whatever the interleaving of the calls, the service keeps its
    connection and its timeout, the clock is not moved, the log of requests
    only grows at its end, a filled slot stays filled, and no call appears
    or disappears. *)
Theorem run_keeps schedule m :
  conn (svc (run schedule m)) = conn (svc m)
  /\ timeout (svc (run schedule m)) = timeout (svc m)
  /\ now (world (run schedule m)) = now (world m)
  /\ requests (world m) `prefix_of` requests (world (run schedule m))
  /\ (is_Some (randaoDomain (svc m)) ->
      is_Some (randaoDomain (svc (run schedule m))))
  /\ length (callers (run schedule m)) = length (callers m).
Proof.
  revert m. induction schedule as [|i sch IH]; intros m; [done|].
  change (run (i :: sch) m) with (run sch (step_at i m)).
  destruct (IH (step_at i m)) as (Hc & Ht & Hn & Hr & Hs & Hl).
  destruct (step_at_keeps i m) as (Hc' & Ht' & Hn' & Hr' & Hs' & Hl').
  repeat split; try congruence.
  - by etrans.
  - intros H. by apply Hs, Hs'.
Qed.

End Pace.

(** ** tekuhttp: more on the constructor and on [close] *)

Section TekuMore.
Import errors context tekuhttp registry.

Context {URL Handler Time World Param : Type}.
Variable parseAndCheckParameters : list Param -> parameters + error.
Variable url_Parse : string -> URL + error.
Variable GenesisTime :
  Service URL Handler Time -> Context -> World ->
  Service URL Handler Time * World * (Time * option error).

Local Abbreviation Service := (Service URL Handler Time).
Local Abbreviation New := (New parseAndCheckParameters url_Parse GenesisTime).
Local Abbreviation keeps_registry := (keeps_registry GenesisTime).

(** The four ways [New] can go. *)
Lemma New_cases c params w :
  (exists e, parseAndCheckParameters params = inr e
             /\ New c params w
                = mkBuilt None (Some (Wrap e "problem with parameters")) w None)
  \/ (exists p e, parseAndCheckParameters params = inl p
                  /\ url_Parse (base_address (p_address p)) = inr e
                  /\ New c params w
                     = mkBuilt None (Some (Wrap e "invalid URL")) w None)
  \/ (exists p u s1 w1 t e,
        parseAndCheckParameters params = inl p
        /\ url_Parse (base_address (p_address p)) = inl u
        /\ GenesisTime (as_built c u p) c w = (s1, w1, (t, Some e))
        /\ New c params w
           = mkBuilt None
               (Some (Wrap (Wrap e "failed to fetch genesis time")
                        "failed to confirm node connection")) w1 None)
  \/ (exists p u s1 w1 t,
        parseAndCheckParameters params = inl p
        /\ url_Parse (base_address (p_address p)) = inl u
        /\ GenesisTime (as_built c u p) c w = (s1, w1, (t, None))
        /\ New c params w = mkBuilt (Some s1) None w1 (Some c)).
Proof.
  destruct (parseAndCheckParameters params) as [p|e] eqn:H.
  2: { left. exists e. split; [done|]. by apply New_bad_parameters. }
  destruct (url_Parse (base_address (p_address p))) as [u|e] eqn:Hu.
  2: { right; left. exists p, e. repeat split; try done.
       by eapply New_bad_url. }
  destruct (GenesisTime (as_built c u p) c w) as [[s1 w1] [t [e|]]] eqn:Hg.
  - right; right; left. exists p, u, s1, w1, t, e. repeat split; try done.
    by eapply New_unreachable.
  - right; right; right. exists p, u, s1, w1, t. repeat split; try done.
    by eapply New_reachable.
Qed.

(** X6: [New] fails before it talks to the node when the options or the
    address are rejected: the world is left as it was.  And it starts its
    watcher exactly when it returns a service, on the context it was given;
    a failed construction leaves no goroutine behind. *)
Theorem New_fails_fast c params w :
  (forall e, parseAndCheckParameters params = inr e ->
             after (New c params w) = w /\ service (New c params w) = None)
  /\ (forall p e,
        parseAndCheckParameters params = inl p ->
        url_Parse (base_address (p_address p)) = inr e ->
        after (New c params w) = w /\ service (New c params w) = None)
  /\ watching (New c params w)
     = match service (New c params w) with
       | Some _ => Some c
       | None => None
       end.
Proof.
  split; [|split].
  - intros e H. by rewrite (New_bad_parameters _ _ _ c params w e H).
  - intros p e H Hu. by rewrite (New_bad_url _ _ _ c params w p e H Hu).
  - destruct (New_cases c params w)
      as [(e & _ & ->)|[(p & e & _ & _ & ->)
         |[(p & u & s1 & w1 & t & e & _ & _ & _ & ->)
          |(p & u & s1 & w1 & t & _ & _ & _ & ->)]]]; reflexivity.
Qed.

(** X7: the error of a failed construction tells the stage that failed and
    keeps the error underneath: its text is the text of that error after
    "problem with parameters: ", "invalid URL: " or "failed to confirm node
    connection: failed to fetch genesis time: ", and its cause is the cause
    of that error. *)
Theorem New_error_names_stage c params w e :
  err (New c params w) = Some e ->
  (exists cause,
      parseAndCheckParameters params = inr cause
      /\ Error e = "problem with parameters: " +:+ Error cause
      /\ Cause e = Cause cause)
  \/ (exists p cause,
        parseAndCheckParameters params = inl p
        /\ url_Parse (base_address (p_address p)) = inr cause
        /\ Error e = "invalid URL: " +:+ Error cause
        /\ Cause e = Cause cause)
  \/ (exists p u cause,
        parseAndCheckParameters params = inl p
        /\ url_Parse (base_address (p_address p)) = inl u
        /\ (GenesisTime (as_built c u p) c w).2.2 = Some cause
        /\ Error e
           = "failed to confirm node connection: failed to fetch genesis time: "
             +:+ Error cause
        /\ Cause e = Cause cause).
Proof.
  destruct (New_cases c params w)
    as [(e0 & H & ->)|[(p & e0 & H & Hu & ->)
       |[(p & u & s1 & w1 & t & e0 & H & Hu & Hg & ->)
        |(p & u & s1 & w1 & t & _ & _ & _ & ->)]]]; cbn [err].
  - intros [= <-]. left. by exists e0.
  - intros [= <-]. right; left. by exists p, e0.
  - intros [= <-]. right; right. exists p, u, e0. rewrite Hg. done.
  - discriminate.
Qed.

(** X10: when [GenesisTime] leaves the registry alone, a service returned
    by [New] has no handler and a free lock, so that [close] succeeds on it
    and leaves it as it is, also when it is the watcher that closes it. *)
Theorem New_service_closes c params w s :
  keeps_registry ->
  service (New c params w) = Some s ->
  beaconChainHeadUpdatedHandlers s = []
  /\ beaconChainHeadUpdatedMutex s = Unlocked
  /\ close s = Some s
  /\ (isDone c = true -> watcher c s = Some s).
Proof.
  intros Hkeep Hs.
  destruct (New_service_inv _ _ _ c params w s Hs)
    as (p & u & t & _ & _ & Hg & _).
  destruct (Hkeep (as_built c u p) c w) as [Hm Hh]. rewrite Hg in Hm, Hh.
  cbn in Hm, Hh.
  assert (close s = Some s) as Hclose.
  { rewrite (close_unlocked s Hm). f_equal.
    destruct s; cbn in *. by subst. }
  repeat split; try done. intros Hc. unfold watcher. by rewrite Hc.
Qed.

(** X9: [close] goes through exactly when the lock of the registry is free;
    it then returns the service with its handlers replaced by the empty list
    and nothing else changed, and the lock it releases is always the one it
    took: the unlock never faults. *)
Theorem close_needs_free_lock (s : Service) :
  (is_Some (close s) <-> beaconChainHeadUpdatedMutex s = Unlocked)
  /\ (forall s', close s = Some s' -> s' = set_handlers s [])
  /\ (forall s1, close_lock s = Some s1 ->
                 is_Some (close_unlock (close_clear s1))).
Proof.
  split; [|split].
  - split.
    + intros [s' H]. unfold close, close_lock in H.
      destruct (beaconChainHeadUpdatedMutex s); [done|discriminate..].
    + intros H. rewrite (close_unlocked s H). done.
  - intros s' H.
    assert (beaconChainHeadUpdatedMutex s = Unlocked) as Hm.
    { unfold close, close_lock in H.
      destruct (beaconChainHeadUpdatedMutex s); [done|discriminate..]. }
    rewrite (close_unlocked s Hm) in H. by injection H as <-.
  - intros s1 H. unfold close_lock in H.
    destruct (beaconChainHeadUpdatedMutex s); try discriminate.
    injection H as <-. by eexists.
Qed.

End TekuMore.

(** ** The address that is parsed *)

Section BaseAddress.
Import tekuhttp.

Lemma length_append (s1 s2 : string) :
  String.length (s1 +:+ s2) = String.length s1 + String.length s2.
Proof.
  induction s1 as [|a s1 IH]; [reflexivity|].
  change (S (String.length (s1 +:+ s2)) = S (String.length s1 + String.length s2)).
  by f_equal.
Qed.

(** X8: the address handed to [url.Parse] always starts with "http"; an
    address that already does is handed over as it is, any other gets
    "http://" in front; and making the address twice changes nothing
    more. *)
Theorem base_address_scheme (a : string) :
  String.prefix "http" (base_address a) = true
  /\ (base_address a = a <-> String.prefix "http" a = true)
  /\ (base_address a = "http://" +:+ a <-> String.prefix "http" a = false)
  /\ base_address (base_address a) = base_address a.
Proof.
  assert ("http://" +:+ a <> a) as Hne.
  { intros H. apply (f_equal String.length) in H.
    rewrite length_append in H. cbn in H. lia. }
  assert (String.prefix "http" (base_address a) = true) as Hpre.
  { unfold base_address. destruct (String.prefix "http" a) eqn:Hp; done. }
  split; [exact Hpre|]. split; [|split].
  - unfold base_address. destruct (String.prefix "http" a) eqn:Hp; split; done.
  - unfold base_address. destruct (String.prefix "http" a) eqn:Hp; split; done.
  - unfold base_address at 1. by rewrite Hpre.
Qed.

End BaseAddress.

(** ** The further properties at work on the stub nodes *)

Section MoreRuns.
Import errors context phase0 prysmgrpc calls interleaving sequence.

Local Abbreviation parse := configparser.parseConfigByteArray.
Local Abbreviation one := [x01; x00; x00; x00].
Local Abbreviation thrice :=
  (calls_in_turn parse stub.Quote (stub.fresh stub.flaky) stub.dawn
     [Background; Background; Background]).

Lemma calls_in_turn_agree_witness :
  thrice.2 !! 0
  = Some (zero, Some (Wrap (foreign "connection refused") msg_obtain))
  /\ (one, None) ∈ thrice.2
  /\ randaoDomain thrice.1.1 = Some one
  /\ length (requests thrice.1.2) = 2.
Proof.
  assert ((one, None) ∈ thrice.2) as H1.
  { apply (list_elem_of_lookup_2 _ 1). reflexivity. }
  assert ((one, None) ∈ thrice.2) as H2.
  { apply (list_elem_of_lookup_2 _ 2). reflexivity. }
  destruct (calls_in_turn_agree parse stub.Quote (stub.fresh stub.flaky)
              stub.dawn [Background; Background; Background] one one H1 H2)
    as [_ Hslot].
  split; [reflexivity|]. split; [exact H1|]. split; [exact Hslot|reflexivity].
Defined.

Lemma RANDAODomain_returns_in_four_turns_witness :
  1 < length [Background; Background]
  /\ 4 <= turns 1 [0; 1; 1; 0; 1; 0; 1]
  /\ exists r,
      callers (stub.run [0; 1; 1; 0; 1; 0; 1]
                 (mkMachine (stub.fresh stub.steady) stub.dawn
                    (AtCheck <$> [Background; Background]))) !! 1
      = Some (Returned r).
Proof.
  assert (1 < length [Background; Background]) as Hi by (cbn; lia).
  assert (4 <= turns 1 [0; 1; 1; 0; 1; 0; 1]) as Ht by (cbn; lia).
  split; [exact Hi|]. split; [exact Ht|].
  exact (RANDAODomain_returns_in_four_turns parse stub.Quote
           (stub.fresh stub.steady) stub.dawn [Background; Background]
           [0; 1; 1; 0; 1; 0; 1] 1 Hi Ht).
Defined.

Lemma run_keeps_witness :
  let m :=
    mkMachine (set_randaoDomain (stub.fresh stub.steady) one) stub.dawn
      [AtStore zero; AtCheck Background] in
  is_Some (randaoDomain (svc m))
  /\ is_Some (randaoDomain (svc (stub.run [0; 1; 1; 0; 1] m)))
  /\ length (callers (stub.run [0; 1; 1; 0; 1] m)) = 2.
Proof.
  intros m. assert (is_Some (randaoDomain (svc m))) as Hs by (by exists one).
  destruct (run_keeps parse stub.Quote [0; 1; 1; 0; 1] m)
    as (_ & _ & _ & _ & Hfilled & Hlen).
  split; [exact Hs|]. split; [exact (Hfilled Hs)|exact Hlen].
Defined.

End MoreRuns.

Section MoreTekuRuns.
Import errors context tekuhttp registry.

Local Abbreviation configured :=
  (mkParameters 0 "localhost:5051" (5 * second)).
Local Abbreviation probed :=
  (stub.set_genesisTime
     (as_built Background "http://localhost:5051" configured) 1606824023).

Lemma GenesisTime_up_keeps_registry : keeps_registry stub.GenesisTime_up.
Proof.
  intros s c w. unfold stub.GenesisTime_up.
  destruct (genesisTime s); split; reflexivity.
Qed.

Lemma New_fails_fast_witness :
  stub.parseAndCheckParameters [stub.WithTimeout second]
  = inr (errors.New "no address specified")
  /\ after (stub.New_up Background [stub.WithTimeout second] ["earlier"])
     = ["earlier"]
  /\ service (stub.New_up Background [stub.WithTimeout second] ["earlier"])
     = None.
Proof.
  split; [reflexivity|].
  apply (proj1 (New_fails_fast stub.parseAndCheckParameters stub.url_Parse
                  stub.GenesisTime_up Background [stub.WithTimeout second]
                  ["earlier"]) (errors.New "no address specified")).
  reflexivity.
Defined.

Lemma New_error_names_stage_witness :
  exists e,
    err (stub.New_down Background stub.options []) = Some e
    /\ Error e
       = "failed to confirm node connection: failed to fetch genesis time: connection refused"
    /\ Cause e = foreign "connection refused".
Proof.
  exists (Wrap (Wrap (foreign "connection refused") "failed to fetch genesis time")
            "failed to confirm node connection").
  split; [reflexivity|].
  destruct (New_error_names_stage stub.parseAndCheckParameters stub.url_Parse
              stub.GenesisTime_down Background stub.options []
              (Wrap (Wrap (foreign "connection refused")
                       "failed to fetch genesis time")
                 "failed to confirm node connection") eq_refl)
    as [(cause & H & _)|[(p & cause & _ & H & _)
       |(p & u & cause & _ & _ & Hg & Htext & Hcause)]].
  - discriminate H.
  - discriminate H.
  - injection Hg as <-. split; [exact Htext|exact Hcause].
Defined.

Lemma base_address_scheme_witness :
  String.prefix "http" "localhost:5051" = false
  /\ base_address "localhost:5051" = "http://localhost:5051"
  /\ String.prefix "http" "https://node.example:5051" = true
  /\ base_address "https://node.example:5051" = "https://node.example:5051".
Proof.
  split; [reflexivity|]. split.
  - apply (proj2 (proj1 (proj2 (proj2 (base_address_scheme "localhost:5051"))))).
    reflexivity.
  - split; [reflexivity|].
    apply (proj2 (proj1 (proj2 (base_address_scheme
                                  "https://node.example:5051")))).
    reflexivity.
Defined.

Lemma close_needs_free_lock_witness :
  beaconChainHeadUpdatedMutex stub.busy = Unlocked
  /\ is_Some (close stub.busy)
  /\ close (set_mutex stub.busy (ReadLocked 1)) = None.
Proof.
  split; [reflexivity|]. split.
  - apply (proj2 (proj1 (close_needs_free_lock stub.busy))). reflexivity.
  - reflexivity.
Defined.

Lemma New_service_closes_witness :
  service (stub.New_up Background stub.options []) = Some probed
  /\ beaconChainHeadUpdatedHandlers probed = []
  /\ close probed = Some probed.
Proof.
  split; [reflexivity|].
  destruct (New_service_closes stub.parseAndCheckParameters stub.url_Parse
              stub.GenesisTime_up Background stub.options [] probed
              GenesisTime_up_keeps_registry New_up_service)
    as (Hh & _ & Hclose & _).
  split; [exact Hh|exact Hclose].
Defined.

End MoreTekuRuns.

(** ** As many requests as calls *)

Section Tight.
Import errors context phase0 prysmgrpc calls interleaving sequence.

Variable parse : string -> list byte * option error.
Variable Quote : string -> string.

Local Abbreviation advance := (advance parse Quote).
Local Abbreviation run := (run parse Quote).

Lemma run_cons i sch m :
  run (i :: sch) m = run sch (step_at parse Quote i m).
Proof. reflexivity. Qed.

(** All the callers test the empty slot, one after the other. *)
Lemma run_checks pre s w (ctxs : list Context) :
  randaoDomain s = None ->
  run (seq (length pre) (length ctxs))
    (mkMachine s w (pre ++ (AtCheck <$> ctxs)))
  = mkMachine s w (pre ++ (AtFetch <$> ctxs)).
Proof.
  intros Hs. revert pre. induction ctxs as [|c rest IH]; intros pre;
    [reflexivity|].
  cbn [length seq fmap list_fmap]. rewrite run_cons, step_at_middle.
  unfold sequence.advance. cbn [fst snd prysmgrpc.step]. rewrite Hs.
  cbn [fst snd].
  rewrite (cons_middle (AtFetch c) pre), (cons_middle (AtFetch c) pre).
  rewrite !app_assoc.
  replace (S (length pre)) with (length (pre ++ [AtFetch c]))
    by (rewrite length_app; cbn; lia).
  apply IH.
Qed.

(** A call at its request sends it, whatever the slot has become. *)
Lemma advance_fetch c s w :
  (advance (AtFetch c, s, w)).1.2 = s
  /\ length (requests (advance (AtFetch c, s, w)).2) = S (length (requests w)).
Proof.
  unfold sequence.advance. cbn [fst snd prysmgrpc.step]. unfold GetBeaconConfig.
  destruct (conn s _ _) as [cfg|e].
  2: { cbn. rewrite length_app. cbn. split; [done|lia]. }
  destruct (Config cfg !! "DomainRandao") as [val|].
  2: { cbn. rewrite length_app. cbn. split; [done|lia]. }
  destruct (parse val) as [tmp [e|]]; cbn; rewrite length_app; cbn;
    (split; [done|lia]).
Qed.

Lemma run_fetches pre s w (ctxs : list Context) :
  length (requests (world (run (seq (length pre) (length ctxs))
                             (mkMachine s w (pre ++ (AtFetch <$> ctxs))))))
  = length (requests w) + length ctxs.
Proof.
  revert pre w. induction ctxs as [|c rest IH]; intros pre w; [cbn; lia|].
  cbn [length seq fmap list_fmap]. rewrite run_cons, step_at_middle.
  destruct (advance_fetch c s w) as [Hsvc Hlen].
  destruct (advance (AtFetch c, s, w)) as [[t' s'] w']. cbn [fst snd] in *.
  subst s'.
  rewrite (cons_middle t' pre), !app_assoc.
  replace (S (length pre)) with (length (pre ++ [t']))
    by (rewrite length_app; cbn; lia).
  rewrite IH. lia.
Qed.

(** X11: the bound of one request per call is reached.  On a service whose
    slot is empty, when all the callers test the slot before any of them
    sends its request, every caller sends one: the requests sent are as many
    as the calls. *)
Theorem RANDAODomain_as_many_requests_as_calls s w (ctxs : list Context) :
  randaoDomain s = None ->
  length (requests (world (run (seq 0 (length ctxs) ++ seq 0 (length ctxs))
                             (mkMachine s w (AtCheck <$> ctxs)))))
  = length (requests w) + length ctxs.
Proof.
  intros Hs. rewrite (run_app parse Quote).
  pose proof (run_checks [] s w ctxs Hs) as Hchecked.
  cbn [length app] in Hchecked. rewrite Hchecked.
  apply (run_fetches [] s w ctxs).
Qed.

End Tight.

Section TightRuns.
Import errors context phase0 prysmgrpc.

Lemma RANDAODomain_as_many_requests_as_calls_witness :
  randaoDomain (stub.fresh stub.steady) = None
  /\ length (requests (world
       (stub.run ([0; 1; 2] ++ [0; 1; 2])
          (mkMachine (stub.fresh stub.steady) stub.dawn
             (AtCheck <$> [Background; Background; Background])))))
     = 0 + 3.
Proof.
  split; [reflexivity|].
  exact (RANDAODomain_as_many_requests_as_calls
           configparser.parseConfigByteArray stub.Quote
           (stub.fresh stub.steady) stub.dawn
           [Background; Background; Background] eq_refl).
Defined.

End TightRuns.
